(** * Cognos vs Power BI validator: the reconciliation core of [model.py]

    A shallow embedding of [strip_leading_zeros], [generate_validation_report]
    and [generate_diff_checker], and the properties of the specification that
    are stated about them; then [column_checklist], [clean_numeric_excel] and
    the data path of [main], with further properties the code shows.

    Modelling choices, once and for all:
    - a cell is text, a number or missing ([NaN]); numbers are exact integers
      (an [int64] column within range), so floating-point rounding is outside
      the model;
    - a Python [str] is a [string] whose characters are read as the code
      points below 256; column labels are text;
    - a [dict] is a [gmap], a [set] is a [gset]; [list(set(..))] is
      [elements], whose order is fixed but, as in Python, not meaningful;
    - pandas is the 2.x line the program needs ([DataFrame.applymap] exists,
      copy-on-write is off). *)

From Stdlib Require Import ZArith Ascii String List Permutation Lia.
From stdpp Require Import base option list sorting gmap strings pretty.

Open Scope string_scope.
Open Scope Z_scope.
Open Scope list_scope.

(** ** Values, exceptions *)

Inductive value : Type :=
  | VStr (s : string)
  | VNum (z : Z)
  | VNaN.

Inductive exn : Type :=
  | ValueError (msg : string)
  | TypeError (msg : string).

Inductive result (A : Type) : Type :=
  | Ok (a : A)
  | Raise (e : exn).
Arguments Ok {A} a.
Arguments Raise {A} e.

#[global] Instance result_bind : MBind result :=
  fun A B k r => match r with Ok a => k a | Raise e => Raise e end.

#[global] Instance result_ret : MRet result := fun A a => Ok a.

(** A computation that may raise, run over a list from left to right. *)
Fixpoint traverse {A B : Type} (f : A -> result B) (l : list A)
  : result (list B) :=
  match l with
  | [] => Ok []
  | x :: l' => y ← f x; ys ← traverse f l'; Ok (y :: ys)
  end.

#[global] Instance value_eq_dec : EqDecision value.
Proof. solve_decision. Defined.

#[global] Instance exn_eq_dec : EqDecision exn.
Proof. solve_decision. Defined.

(** ** The Python string built-ins the program calls *)

Module Py.

Definition code (c : ascii) : N := N_of_ascii c.

(** [str.isspace] on one character: the code points below 256 that Python
    counts as whitespace. *)
Definition isspace (c : ascii) : bool :=
  let n := code c in
  ((9 <=? n) && (n <=? 13) || (28 <=? n) && (n <=? 32)
   || (n =? 133) || (n =? 160))%N.

(** A decimal digit, ['0'] to ['9']. *)
Definition isdecimal (c : ascii) : bool :=
  let n := code c in ((48 <=? n) && (n <=? 57))%N.

(** [str.isdigit] on one character: the decimal digits and, below 256, the
    superscripts two, three and one. *)
Definition isdigit_char (c : ascii) : bool :=
  let n := code c in
  (isdecimal c || (n =? 178) || (n =? 179) || (n =? 185))%N.

Fixpoint all_chars (p : ascii -> bool) (s : string) : bool :=
  match s with
  | EmptyString => true
  | String c s' => p c && all_chars p s'
  end.

(** [s.isdigit()]: every character is a digit and there is at least one. *)
Definition isdigit (s : string) : bool :=
  match s with
  | EmptyString => false
  | _ => all_chars isdigit_char s
  end.

(** [s.lstrip(chars)] for a one-character [chars], and [s.lstrip()]. *)
Fixpoint lstrip_by (p : ascii -> bool) (s : string) : string :=
  match s with
  | EmptyString => EmptyString
  | String c s' => if p c then lstrip_by p s' else s
  end.

Fixpoint rstrip_by (p : ascii -> bool) (s : string) : string :=
  match s with
  | EmptyString => EmptyString
  | String c s' =>
      match rstrip_by p s' with
      | EmptyString => if p c then EmptyString else String c EmptyString
      | r => String c r
      end
  end.

Definition lstrip_char (c : ascii) (s : string) : string :=
  lstrip_by (Ascii.eqb c) s.

(** [s.strip()] *)
Definition strip (s : string) : string :=
  rstrip_by isspace (lstrip_by isspace s).

(** [x or y] on strings: [x] unless it is empty. *)
Definition or_ (x y : string) : string :=
  match x with
  | EmptyString => y
  | _ => x
  end.

Definition digit_value (c : ascii) : Z := Z.of_N (code c) - 48.

(** The digits of an integer literal: decimal digits, single underscores
    allowed between two digits. [seen] tells whether the previous character
    was a digit. *)
Fixpoint int_digits (acc : Z) (seen : bool) (s : string) : option Z :=
  match s with
  | EmptyString => if seen then Some acc else None
  | String c s' =>
      if isdecimal c then int_digits (10 * acc + digit_value c) true s'
      else if Ascii.eqb c "_" then
             if seen then int_digits acc false s' else None
           else None
  end.

(** [int(s)] in base 10: surrounding whitespace is ignored, a sign is
    allowed; [None] is [ValueError]. *)
Definition int (s : string) : option Z :=
  match strip s with
  | EmptyString => None
  | String c d =>
      if Ascii.eqb c "-" then Z.opp <$> int_digits 0 false d
      else if Ascii.eqb c "+" then int_digits 0 false d
      else int_digits 0 false (String c d)
  end.

Definition lower_char (c : ascii) : ascii :=
  let n := code c in
  if ((65 <=? n) && (n <=? 90)
      || (192 <=? n) && (n <=? 222) && negb (n =? 215))%N
  then ascii_of_N (n + 32) else c.

(** [upper] on one character. The three code points below 256 whose upper
    case lies above 255 (181, 223, 255) are left as they are. *)
Definition upper_char (c : ascii) : ascii :=
  let n := code c in
  if ((97 <=? n) && (n <=? 122)
      || (224 <=? n) && (n <=? 254) && negb (n =? 247))%N
  then ascii_of_N (n - 32) else c.

Fixpoint map_chars (f : ascii -> ascii) (s : string) : string :=
  match s with
  | EmptyString => EmptyString
  | String c s' => String (f c) (map_chars f s')
  end.

Definition lower : string -> string := map_chars lower_char.
Definition upper : string -> string := map_chars upper_char.

(** [sub in s] *)
Fixpoint contains (sub s : string) : bool :=
  String.prefix sub s ||
  match s with
  | EmptyString => false
  | String _ s' => contains sub s'
  end.

(** [s.endswith(suffix)]: [suffix] is [s] or the end of its tail. *)
Fixpoint endswith (s suffix : string) : bool :=
  String.eqb s suffix ||
  match s with
  | EmptyString => false
  | String _ s' => endswith s' suffix
  end.

(** [sep.join(parts)] *)
Definition join (sep : string) (parts : list string) : string :=
  String.concat sep parts.

End Py.

(** ** Value Normalizer: [strip_leading_zeros] *)

Definition strip_leading_zeros (val : value) : result value :=
  match val with
  | VStr s =>
      if Py.isdigit (Py.lstrip_char "0" (Py.strip s)) then
        match Py.int (Py.or_ (Py.lstrip_char "0" s) "0") with
        | Some z => Ok (VNum z)
        | None => Raise (ValueError "invalid literal for int() with base 10")
        end
      else Ok val
  | _ => Ok val
  end.

(** ** Frames *)

#[global] Instance value_countable : Countable value.
Proof.
  refine (inj_countable'
    (fun v => match v with
              | VStr s => inl s
              | VNum z => inr (Some z)
              | VNaN => inr None
              end)
    (fun x => match x with
              | inl s => VStr s
              | inr (Some z) => VNum z
              | inr None => VNaN
              end) _).
  by intros [].
Defined.

(** A row is the record of its cells by column label. *)
Abbreviation row := (gmap string value).

(** The cell of a row under a label; a cell that is not there is missing. *)
Definition cell (r : row) (col : string) : value := default VNaN (r !! col).

Definition isna (v : value) : bool :=
  match v with VNaN => true | _ => false end.

(** The three classes of column type the program tells apart:
    [dtype == 'object'], [np.issubdtype(dtype, np.number)], and the rest
    ([bool], [datetime64]). A cell of a column of the third class is carried
    as the text [astype(str)] gives it: the program only compares, sorts and
    prints such cells. *)
Inductive dtype : Type := DObject | DNumber | DOther.

#[global] Instance dtype_eq_dec : EqDecision dtype.
Proof. solve_decision. Defined.

Definition is_number (d : dtype) : bool :=
  match d with DNumber => true | _ => false end.

(** An input dataset: the sheet as [pd.read_excel] returns it. *)
Record DataFrame : Type := {
  columns : list string;
  dtypes : gmap string dtype;
  rows : list row
}.

Definition dtype_of (df : DataFrame) (col : string) : dtype :=
  default DObject (dtypes df !! col).

(** A frame the program derives (the two aggregates, the report, the
    summary). The program never asks for the type of their columns, so
    only labels and rows are kept. A label that [tcols] lists twice shows
    the same column twice. *)
Record Table : Type := {
  tcols : list string;
  trows : list row
}.

(** [t[col]] as the list of its cells, top to bottom. *)
Definition getitem (t : Table) (col : string) : list value :=
  fmap (fun r => cell r col) (trows t).

(** [t[col] = vals]: replaces the column, or appends it as the last one. *)
Definition setitem (t : Table) (col : string) (vals : list value) : Table :=
  {| tcols := if decide (col ∈ tcols t) then tcols t else tcols t ++ [col];
     trows := zip_with (fun r v => <[col := v]> r) (trows t) vals |}.

(** [t[cols]] for a list of labels, all of them labels of [t]. *)
Definition select (t : Table) (cols : list string) : Table :=
  {| tcols := cols;
     trows := fmap (fun r : row => filter (fun kv => kv.1 ∈ cols) r) (trows t) |}.

(** [dict(zip(ks, vs))]: a later pair replaces an earlier one with its key. *)
Definition dict_zip (ks vs : list value) : gmap value value :=
  foldl (fun d kv => <[kv.1 := kv.2]> d) ∅ (zip ks vs).

(** [s.map(d)] for a dict [d]: a value that is no key of [d] gives NaN. *)
Definition series_map (d : gmap value value) (s : list value) : list value :=
  fmap (fun v => default VNaN (d !! v)) s.

(** [s.fillna(other)] for a series [other] on the same index. *)
Definition series_fillna (s other : list value) : list value :=
  zip_with (fun a b => if isna a then b else a) s other.

(** [s.fillna(v)] for a scalar [v]. *)
Definition fillna_scalar (v : value) (s : list value) : list value :=
  fmap (fun a => if isna a then v else a) s.

(** [a - b] on two cells; text cannot be subtracted. *)
Definition value_sub (a b : value) : result value :=
  match a, b with
  | VNum x, VNum y => Ok (VNum (x - y))
  | VStr _, _ | _, VStr _ =>
      Raise (TypeError "unsupported operand type(s) for -")
  | _, _ => Ok VNaN
  end.

(** [a - b] on two series, cell by cell. *)
Definition series_sub (a b : list value) : result (list value) :=
  traverse (fun ab => value_sub ab.1 ab.2) (zip a b).

(** ** The order of the groups of [groupby]

    [groupby] sorts its groups by key. Within a column numbers come
    first, by value, then text, by code point; keys compare column by
    column. *)

Definition value_cmp (a b : value) : comparison :=
  match a, b with
  | VNum x, VNum y => Z.compare x y
  | VNum _, _ => Lt
  | VStr _, VNum _ => Gt
  | VStr s, VStr t => String.compare s t
  | VStr _, VNaN => Lt
  | VNaN, VNaN => Eq
  | VNaN, _ => Gt
  end.

Fixpoint key_cmp (k1 k2 : list value) : comparison :=
  match k1, k2 with
  | [], [] => Eq
  | [], _ :: _ => Lt
  | _ :: _, [] => Gt
  | a :: k1', b :: k2' =>
      match value_cmp a b with
      | Eq => key_cmp k1' k2'
      | c => c
      end
  end.

Definition key_le (k1 k2 : list value) : Prop := key_cmp k1 k2 <> Gt.

#[global] Instance key_le_dec : RelDecision key_le.
Proof.
  intros k1 k2. unfold key_le.
  destruct (key_cmp k1 k2); [left | left | right]; congruence.
Defined.

(** ** Aggregator *)

(** [df[dims] = df[dims].fillna(v)]: the frame [df] itself is updated. A
    column that had a missing cell comes back with type [object]. *)
Definition fillna_row (dims : list string) (v : value) (r : row) : row :=
  foldr (fun d r' => if isna (cell r d) then <[d := v]> r' else r') r dims.

Definition fillna_cols (df : DataFrame) (dims : list string) (v : value)
  : DataFrame :=
  {| columns := columns df;
     dtypes :=
       foldr (fun d m =>
                if existsb (fun r => isna (cell r d)) (rows df)
                then <[d := DObject]> m else m)
             (dtypes df) dims;
     rows := fmap (fillna_row dims v) (rows df) |}.

(** The cells of a row under the dimensions: the key of its group. *)
Definition group_key (dims : list string) (r : row) : list value :=
  fmap (cell r) dims.

Definition num_of (v : value) : Z :=
  match v with VNum z => z | _ => 0 end.

Definition sum_Z (l : list Z) : Z := foldr Z.add 0 l.

(** The sum of measure [m] over the rows of group [k]; a missing cell
    counts for nothing. *)
Definition group_sum (rs : list row) (dims : list string) (k : list value)
    (m : string) : Z :=
  sum_Z (fmap (fun r => num_of (cell r m))
             (filter (fun r => group_key dims r = k) rs)).

(** The keys of the groups, sorted; a row with a missing key cell is in no
    group. *)
Definition group_keys (rs : list row) (dims : list string) : list (list value) :=
  merge_sort key_le
    (remove_dups (filter (fun k => VNaN ∉ k) (fmap (group_key dims) rs))).

(** [df.groupby(dims)[measures].sum().reset_index()]: one row per group,
    with the cells of its key and the sum of each measure. *)
Definition groupby_sum (df : DataFrame) (dims measures : list string) : Table :=
  {| tcols := dims ++ measures;
     trows :=
       fmap (fun k =>
               list_to_map
                 (zip dims k
                  ++ fmap (fun m => (m, VNum (group_sum (rows df) dims k m)))
                          measures))
            (group_keys (rows df) dims) |}.

(** ** Key Unifier *)

(** [astype(str)] on one cell. *)
Definition astype_str (v : value) : string :=
  match v with
  | VStr s => s
  | VNum z => pretty z
  | VNaN => "nan"
  end.

(** [agg[dims].astype(str).agg('-'.join, axis=1).str.upper()], row by row. *)
Definition unique_key (dims : list string) (r : row) : value :=
  VStr (Py.upper (Py.join "-" (fmap (fun d => astype_str (cell r d)) dims))).

(** Lines 84-85: the aggregate gets its key column. *)
Definition with_unique_key (agg : Table) (dims : list string) : Table :=
  setitem agg "unique_key" (fmap (unique_key dims) (trows agg)).

(** ** Dimension Selector *)

(** What [st.warning] and [st.info] show; the list is the one the message
    prints. *)
Inductive message : Type :=
  | st_warning (dims : list string)
  | st_info (dims : list string).

(** Lines 58-67: the three comprehensions, each tried when the one before
    gave nothing. *)
Definition select_dims (cognos_df pbi_df : DataFrame)
  : list string * list message :=
  let dims :=
    filter (fun col =>
              col ∈ columns pbi_df ∧
              (dtype_of cognos_df col = DObject
               ∨ Py.contains "_id" (Py.lower col)
               ∨ Py.contains "_key" (Py.lower col)
               ∨ Py.contains "_ID" col ∨ Py.contains "_KEY" col))
           (columns cognos_df) in
  let dims :=
    match dims with
    | [] => filter (fun col =>
                      col ∈ columns pbi_df ∧
                      is_number (dtype_of cognos_df col) = false)
                   (columns cognos_df)
    | _ => dims
    end in
  match dims with
  | [] =>
      let dims := filter (fun col => col ∈ columns pbi_df) (columns cognos_df) in
      (dims, [st_warning dims])
  | _ => (dims, [])
  end.

(** ** Measure Set (lines 77-79) *)

Definition measures_of (df : DataFrame) (dims : list string) : list string :=
  filter (fun col => (col ∉ dims) ∧ is_number (dtype_of df col)) (columns df).

Definition all_measures_of (cognos_df pbi_df : DataFrame) (dims : list string)
  : list string :=
  elements ((list_to_set (measures_of cognos_df dims) : gset string)
            ∩ list_to_set (measures_of pbi_df dims)).

(** ** Reconciler (lines 87-107) *)

(** One turn of the loop over the dimensions (lines 90-91). The second
    statement fills in place the column the first one wrote; both read the
    key column as the report has it at that moment. *)
Definition fill_dimension (cognos_agg pbi_agg : Table)
    (validation_report : Table) (dim : string) : Table :=
  let validation_report :=
    setitem validation_report dim
      (series_map
         (dict_zip (getitem cognos_agg "unique_key") (getitem cognos_agg dim))
         (getitem validation_report "unique_key")) in
  setitem validation_report dim
    (series_fillna (getitem validation_report dim)
       (series_map
          (dict_zip (getitem pbi_agg "unique_key") (getitem pbi_agg dim))
          (getitem validation_report "unique_key"))).

(** The lambda of lines 94-96. *)
Definition presence_of (cognos_agg pbi_agg : Table) (key : value) : value :=
  if decide (key ∈ getitem cognos_agg "unique_key"
             ∧ key ∈ getitem pbi_agg "unique_key")
  then VStr "Present in Both"
  else if decide (key ∈ getitem cognos_agg "unique_key")
       then VStr "Present in Cognos"
       else VStr "Present in PBI".

(** One turn of the loop over the measures (lines 100-102). *)
Definition add_measure (cognos_agg pbi_agg : Table)
    (validation_report : Table) (measure : string) : result Table :=
  let validation_report :=
    setitem validation_report (measure +:+ "_Cognos")
      (series_map
         (dict_zip (getitem cognos_agg "unique_key")
                   (getitem cognos_agg measure))
         (getitem validation_report "unique_key")) in
  let validation_report :=
    setitem validation_report (measure +:+ "_PBI")
      (series_map
         (dict_zip (getitem pbi_agg "unique_key") (getitem pbi_agg measure))
         (getitem validation_report "unique_key")) in
  diff ← series_sub
           (fillna_scalar (VNum 0) (getitem validation_report (measure +:+ "_PBI")))
           (fillna_scalar (VNum 0)
              (getitem validation_report (measure +:+ "_Cognos")));
  Ok (setitem validation_report (measure +:+ "_Diff") diff).

(** A loop whose body may raise. *)
Fixpoint foldlM {A B : Type} (f : A -> B -> result A) (a : A) (l : list B)
  : result A :=
  match l with
  | [] => Ok a
  | b :: l' => a' ← f a b; foldlM f a' l'
  end.

(** Lines 104-106. *)
Definition column_order (dims all_measures : list string) : list string :=
  ["unique_key"] ++ dims ++ ["presence"]
  ++ concat (fmap (fun measure =>
                    [measure +:+ "_Cognos"; measure +:+ "_PBI"; measure +:+ "_Diff"])
                 all_measures).

(** Line 87: [list(set(cognos_agg['unique_key']) | set(pbi_agg['unique_key']))]. *)
Definition unified_keys (cognos_agg pbi_agg : Table) : list value :=
  elements ((list_to_set (getitem cognos_agg "unique_key") : gset value)
            ∪ list_to_set (getitem pbi_agg "unique_key")).

(** Lines 87-107, from the two aggregates with their key column. *)
Definition reconcile (cognos_agg pbi_agg : Table) (dims all_measures : list string)
  : result Table :=
  let validation_report :=
    {| tcols := ["unique_key"];
       trows := fmap (fun k => {["unique_key" := k]})
                     (unified_keys cognos_agg pbi_agg) |} in
  let validation_report :=
    foldl (fill_dimension cognos_agg pbi_agg) validation_report dims in
  let validation_report :=
    setitem validation_report "presence"
      (fmap (presence_of cognos_agg pbi_agg)
           (getitem validation_report "unique_key")) in
  validation_report ←
    foldlM (add_measure cognos_agg pbi_agg) validation_report all_measures;
  Ok (select validation_report (column_order dims all_measures)).

(** ** [generate_validation_report]

    The call returns a value or raises, leaves the two frames it was given
    in some state, and has shown some messages. *)
Record outcome : Type := {
  returned : result (Table * Table * Table * list string);
  cognos_df_after : DataFrame;
  pbi_df_after : DataFrame;
  shown : list message
}.

Definition generate_validation_report (cognos_df pbi_df : DataFrame) : outcome :=
  let '(dims, shown) := select_dims cognos_df pbi_df in
  match dims with
  | [] =>
      {| returned :=
           Raise (ValueError "No common columns found to use as dimensions.");
         cognos_df_after := cognos_df;
         pbi_df_after := pbi_df;
         shown := shown |}
  | _ =>
      let shown := shown ++ [st_info dims] in
      let cognos_df := fillna_cols cognos_df dims (VStr "NAN") in
      let pbi_df := fillna_cols pbi_df dims (VStr "NAN") in
      let all_measures := all_measures_of cognos_df pbi_df dims in
      let cognos_agg := groupby_sum cognos_df dims all_measures in
      let pbi_agg := groupby_sum pbi_df dims all_measures in
      let cognos_agg := with_unique_key cognos_agg dims in
      let pbi_agg := with_unique_key pbi_agg dims in
      {| returned :=
           validation_report ← reconcile cognos_agg pbi_agg dims all_measures;
           Ok (validation_report, cognos_agg, pbi_agg, dims);
         cognos_df_after := cognos_df;
         pbi_df_after := pbi_df;
         shown := shown |}
  end.

(** ** Summary Builder: [generate_diff_checker] *)

(** [a + b] on two cells: numbers add, texts concatenate. *)
Definition value_add (a b : value) : result value :=
  match a, b with
  | VNum x, VNum y => Ok (VNum (x + y))
  | VStr s, VStr t => Ok (VStr (s +:+ t))
  | VNaN, VNum _ | VNum _, VNaN | VNaN, VNaN => Ok VNaN
  | _, _ => Raise (TypeError "unsupported operand type(s) for +")
  end.

(** [s.sum()]: missing cells count as 0, the rest is added up left to
    right; the sum of no cell is 0. *)
Definition series_sum (s : list value) : result value :=
  match fillna_scalar (VNum 0) s with
  | [] => Ok (VNum 0)
  | v :: l => foldlM value_add v l
  end.

(** A row of the summary frame. *)
Definition summary_row (name : string) (v : value) : row :=
  {[ "Diff Column Name" := VStr name; "Sum of Difference" := v ]}.

(** [all(validation_report['presence'] == 'Present in Both')]. Under a
    label the frame carries twice, [validation_report['presence']] is a
    frame, not a series, and [all] of a frame runs over its column labels,
    which are non-empty strings. *)
Definition all_present_in_both (validation_report : Table) : bool :=
  if decide (1 < count_occ string_dec (tcols validation_report) "presence")%nat
  then true
  else forallb (fun v => bool_decide (v = VStr "Present in Both"))
               (getitem validation_report "presence").

(** A [_Diff] label the frame carries twice is read as one column here. *)
Definition generate_diff_checker (validation_report : Table) : result Table :=
  let diff_columns :=
    filter (fun col => Py.endswith col "_Diff") (tcols validation_report) in
  sums ← traverse (fun col => series_sum (getitem validation_report col))
                  diff_columns;
  let presence_summary :=
    summary_row "All rows present in both"
      (if all_present_in_both validation_report
       then VStr "Yes" else VStr "No") in
  Ok {| tcols := ["Diff Column Name"; "Sum of Difference"];
        trows := zip_with summary_row diff_columns sums ++ [presence_summary] |}.

(** ** Column Checklist: [column_checklist] *)

(** A row of the checklist frame, by its three labels. *)
Record checklist_row : Type := {
  Cognos_Columns : string;
  PowerBI_Columns : string;
  Match : bool
}.

#[global] Instance checklist_row_eq_dec : EqDecision checklist_row.
Proof. solve_decision. Defined.

(** Lines 112-122: each list of labels is padded with empty strings to the
    length of the longer one, and the lambda of line 120 compares the two
    cells of a row. *)
Definition column_checklist (cognos_df pbi_df : DataFrame) : list checklist_row :=
  let cognos_columns := columns cognos_df in
  let pbi_columns := columns pbi_df in
  let n := Nat.max (length pbi_columns) (length cognos_columns) in
  zip_with
    (fun c p =>
       {| Cognos_Columns := c; PowerBI_Columns := p;
          Match := bool_decide (c = p) |})
    (cognos_columns ++ replicate (n - length cognos_columns) "")
    (pbi_columns ++ replicate (n - length pbi_columns) "").

(** ** Numeric cleaning: [clean_numeric_excel] *)

Definition is_text (v : value) : bool :=
  match v with VStr _ => true | _ => false end.

Definition is_num_cell (v : value) : bool :=
  match v with VNum _ => true | _ => false end.

(** [strip_leading_zeros] on a cell of a column of a given type. A cell of
    a column of the third class (a date, a truth value) is no [str]: line 13
    returns it. *)
Definition clean_cell (d : dtype) (v : value) : result value :=
  match d with
  | DOther => Ok v
  | _ => strip_leading_zeros v
  end.

(** The cell after the call, when the call returned. *)
Definition cleaned (d : dtype) (v : value) : value :=
  match clean_cell d v with
  | Ok v' => v'
  | Raise _ => v
  end.

(** The types of the columns of the frame [applymap] returns, read off the
    new cells: a text column none of whose cells is text any more has
    become numeric. A frame with no row comes back as it was. *)
Definition inferred_dtypes (df : DataFrame) (rows' : list row)
  : gmap string dtype :=
  foldr (fun col m =>
           if bool_decide (dtype_of df col = DObject)
              && negb (bool_decide (rows df = []))
              && forallb (fun r => negb (is_text (cell r col))) rows'
           then <[col := DNumber]> m else m)
        (dtypes df) (columns df).

(** [df.applymap(strip_leading_zeros)] (line 24): the function is called on
    every cell, column by column; the first call that raises ends the
    whole. *)
Definition applymap_strip (df : DataFrame) : result DataFrame :=
  _ ← traverse
        (fun col =>
           traverse (fun r => clean_cell (dtype_of df col) (cell r col)) (rows df))
        (columns df);
  let rows' :=
    (fun r : row =>
       map_imap (fun col v => Some (cleaned (dtype_of df col) v)) r)
    <$> rows df in
  Ok {| columns := columns df;
        dtypes := inferred_dtypes df rows';
        rows := rows' |}.

(** What a call of [clean_numeric_excel] leaves: its result, and whether
    the temporary file of line 16 is still there. *)
Record cleaning : Type := {
  cleaned_data : result (gmap string DataFrame);
  temp_file_left : bool
}.

(** Lines 15-28. [xls] is what [pd.read_excel(temp_path, sheet_name=None)]
    gives: the sheets by name, in the order of the workbook, or an
    exception. The temporary file is removed on line 27 only. *)
Definition clean_numeric_excel (xls : result (list (string * DataFrame)))
  : cleaning :=
  let cleaned_data :=
    xls ← xls;
    foldlM (fun cleaned_data (item : string * DataFrame) =>
              cleaned_df ← applymap_strip item.2;
              Ok (<[item.1 := cleaned_df]> cleaned_data))
           ∅ xls in
  {| cleaned_data := cleaned_data;
     temp_file_left :=
       match cleaned_data with Ok _ => false | Raise _ => true end |}.

(** ** The caller: [main] *)

(** [x.str.upper().str.strip()] on one cell of a text column: a cell that
    is no text gives NaN. *)
Definition str_upper_strip (v : value) : value :=
  match v with
  | VStr s => VStr (Py.strip (Py.upper s))
  | _ => VNaN
  end.

(** [.str] on a column: an [object] column that holds numbers and no text
    is refused. *)
Definition str_accessor_ok (df : DataFrame) (col : string) : bool :=
  existsb (fun r => is_text (cell r col)) (rows df)
  || forallb (fun r => negb (is_num_cell (cell r col))) (rows df).

(** What [main] can show as an error: an exception of the two kinds the
    report functions raise, or the [AttributeError] of [.str]. The text of
    an exception is carried as the model has it. *)
Inductive error : Type :=
  | Exception (e : exn)
  | AttributeError (msg : string).

(** Lines 166-167: [df.apply(lambda x: x.str.upper().str.strip()
    if x.dtype == "object" else x)]. *)
Definition upper_strip_objects (df : DataFrame) : error + DataFrame :=
  if forallb (fun col => negb (bool_decide (dtype_of df col = DObject))
                         || str_accessor_ok df col)
             (columns df)
  then inr {| columns := columns df;
              dtypes := dtypes df;
              rows :=
                (fun r : row =>
                   map_imap (fun col v =>
                               Some (if decide (dtype_of df col = DObject)
                                     then str_upper_strip v else v)) r)
                <$> rows df |}
  else inl (AttributeError "Can only use .str accessor with string values!").

(** The radio button of line 169. *)
Inductive choice : Type :=
  | Data_Present
  | Only_Column_Names_Present.

(** A sheet [main] writes. *)
Inductive sheet : Type :=
  | Frame (df : DataFrame)
  | Derived (t : Table)
  | Checklist (rows : list checklist_row).

(** What a run of [main] on an uploaded file comes to: the error it shows,
    or the workbook it offers for download, by the label of its button
    and its sheets in order (the fixed [Checklist] sheet of lines 31-55,
    which comes first, is left out), with the messages the call of
    [generate_validation_report] has shown. *)
Inductive shows : Type :=
  | st_error_missing_sheets
  | st_error (e : error)
  | st_download_button (label : string) (sheets : list (string * sheet))
                       (shown : list message).

Record run : Type := {
  outcome_of_run : shows;
  temp_file : bool
}.

(** Lines 156-214, for a file that was uploaded. *)
Definition main (xls : result (list (string * DataFrame))) (option : choice)
  : run :=
  let c := clean_numeric_excel xls in
  {| temp_file := temp_file_left c;
     outcome_of_run :=
       match cleaned_data c with
       | Raise e => st_error (Exception e)
       | Ok cleaned_data =>
           match cleaned_data !! "Cognos", cleaned_data !! "PBI" with
           | Some cognos_df, Some pbi_df =>
               match upper_strip_objects cognos_df with
               | inl e => st_error e
               | inr cognos_df =>
                   match upper_strip_objects pbi_df with
                   | inl e => st_error e
                   | inr pbi_df =>
                       match option with
                       | Only_Column_Names_Present =>
                           let column_checklist_df :=
                             column_checklist cognos_df pbi_df in
                           st_download_button "Download Column Check Report"
                             [("Cognos", Frame cognos_df);
                              ("PBI", Frame pbi_df);
                              ("Column Checklist", Checklist column_checklist_df)]
                             []
                       | Data_Present =>
                           let o := generate_validation_report cognos_df pbi_df in
                           match returned o with
                           | Raise e => st_error (Exception e)
                           | Ok (validation_report, cognos_agg, pbi_agg, dims) =>
                               let column_checklist_df :=
                                 column_checklist (cognos_df_after o)
                                                  (pbi_df_after o) in
                               match generate_diff_checker validation_report with
                               | Raise e => st_error (Exception e)
                               | Ok diff_checker_df =>
                                   st_download_button "Download Validation Excel Report"
                                     [("Cognos", Derived cognos_agg);
                                      ("PBI", Derived pbi_agg);
                                      ("Validation_Report",
                                       Derived validation_report);
                                      ("Column Checklist",
                                       Checklist column_checklist_df);
                                      ("Diff Checker", Derived diff_checker_df)]
                                     (shown o)
                               end
                           end
                       end
                   end
               end
           | _, _ => st_error_missing_sheets
           end
       end |}.

(** ** Example datasets

    What a call returned, read off its outcome. *)

Definition empty_table : Table := {| tcols := []; trows := [] |}.

Definition report_of (o : outcome) : Table :=
  match returned o with Ok (vr, _, _, _) => vr | Raise _ => empty_table end.

Definition cognos_agg_of (o : outcome) : Table :=
  match returned o with Ok (_, ca, _, _) => ca | Raise _ => empty_table end.

Definition pbi_agg_of (o : outcome) : Table :=
  match returned o with Ok (_, _, pa, _) => pa | Raise _ => empty_table end.

Definition dims_of (o : outcome) : list string :=
  match returned o with Ok (_, _, _, dims) => dims | Raise _ => [] end.

Definition measures_after (o : outcome) : list string :=
  all_measures_of (cognos_df_after o) (pbi_df_after o) (dims_of o).

(** Row [i] of a table. *)
Definition row_at (t : Table) (i : nat) : row := default ∅ (trows t !! i).

(** A dataset from its typed columns and the cells of its rows. *)
Definition frame (cols : list (string * dtype)) (rs : list (list value))
  : DataFrame :=
  {| columns := cols.*1;
     dtypes := list_to_map cols;
     rows := (fun r => list_to_map (zip cols.*1 r)) <$> rs |}.

(** The end-to-end example of the specification. *)
Definition ex_cognos : DataFrame :=
  frame [("Region", DObject); ("Sales", DNumber)]
        [[VStr "East"; VNum 100]; [VStr "West"; VNum 50]].

Definition ex_pbi : DataFrame :=
  frame [("Region", DObject); ("Sales", DNumber)]
        [[VStr "east"; VNum 90]; [VStr "North"; VNum 20]].

Definition ex_run : outcome := generate_validation_report ex_cognos ex_pbi.

(** A source with two regions that differ by case only, and a row whose
    region is missing. *)
Definition mixed_cognos : DataFrame :=
  frame [("Region", DObject); ("Sales", DNumber)]
        [[VStr "East"; VNum 100]; [VStr "EAST"; VNum 50]; [VNaN; VNum 7]].

Definition mixed_run : outcome := generate_validation_report mixed_cognos ex_pbi.

(** A target with two regions that differ by case only, and a source that
    has the same key. *)
Definition upper_cognos : DataFrame :=
  frame [("Region", DObject); ("Sales", DNumber)] [[VStr "EAST"; VNum 100]].

Definition cased_pbi : DataFrame :=
  frame [("Region", DObject); ("Sales", DNumber)]
        [[VStr "East"; VNum 90]; [VStr "east"; VNum 5]].

Definition cased_run : outcome :=
  generate_validation_report upper_cognos cased_pbi.


Definition amount_pbi : DataFrame :=
  frame [("Region", DObject); ("Amount", DObject)]
        [[VStr "East"; VStr "n/a"]; [VStr "North"; VStr "20"]].









(** * Notions the statements use *)

(** The columns the two datasets share, in the order of the source. *)
Definition shared_columns (cognos_df pbi_df : DataFrame) : list string :=
  filter (fun col => col ∈ columns pbi_df) (columns cognos_df).

(** A column that is textual in the source, or has [_id] or [_key] in its
    name, whatever the case. *)
Definition textual_or_id_key (cognos_df : DataFrame) (col : string) : Prop :=
  dtype_of cognos_df col = DObject
  ∨ Py.contains "_id" (Py.lower col) ∨ Py.contains "_key" (Py.lower col).

#[global] Instance textual_or_id_key_dec cognos_df col :
  Decision (textual_or_id_key cognos_df col).
Proof. unfold textual_or_id_key. apply _. Defined.

(** The selector as the specification words it: the first of three
    candidate sets that is not empty, and a warning with the third. *)
Definition dimension_selector_spec (cognos_df pbi_df : DataFrame)
  : list string * bool :=
  let shared := shared_columns cognos_df pbi_df in
  match filter (textual_or_id_key cognos_df) shared with
  | [] =>
      match filter (fun col => dtype_of cognos_df col <> DNumber) shared with
      | [] => (shared, true)
      | dims => (dims, false)
      end
  | dims => (dims, false)
  end.

(** The aggregate of one dataset as the call returns it (lines 81-85). *)
Definition aggregate (df : DataFrame) (dims all_measures : list string) : Table :=
  with_unique_key (groupby_sum df dims all_measures) dims.


(** The row an aggregate holds for a key: the last one that carries it. *)
Definition agg_row (agg : Table) (key : value) : option row :=
  last (filter (fun r => cell r "unique_key" = key) (trows agg)).

(** The cell an aggregate holds for a key under a label; missing when the
    key is not a key of the aggregate. *)
Definition agg_value (agg : Table) (col : string) (key : value) : value :=
  from_option (fun r => cell r col) VNaN (agg_row agg key).

(** What the loop over the dimensions does to one row of the report. *)
Definition fill_dimension_row (cognos_agg pbi_agg : Table) (r : row)
    (dim : string) : row :=
  let r1 := <[dim := agg_value cognos_agg dim (cell r "unique_key")]> r in
  <[dim := if isna (cell r1 dim)
           then agg_value pbi_agg dim (cell r1 "unique_key")
           else cell r1 dim]> r1.

(** What the loop over the measures does to one row of the report, when
    the subtraction is between numbers. *)
Definition add_measure_row (cognos_agg pbi_agg : Table) (r : row)
    (m : string) : row :=
  let r1 := <[m +:+ "_Cognos" := agg_value cognos_agg m (cell r "unique_key")]> r in
  let r2 := <[m +:+ "_PBI" := agg_value pbi_agg m (cell r1 "unique_key")]> r1 in
  <[m +:+ "_Diff" :=
      VNum (num_of (cell r2 (m +:+ "_PBI")) - num_of (cell r2 (m +:+ "_Cognos")))]>
    r2.

(** One row of the report, from its key. *)
Definition report_row (cognos_agg pbi_agg : Table)
    (dims all_measures : list string) (key : value) : row :=
  let r := foldl (fill_dimension_row cognos_agg pbi_agg) {["unique_key" := key]} dims in
  let r := <["presence" :=
               presence_of cognos_agg pbi_agg (cell r "unique_key")]> r in
  let r := foldl (add_measure_row cognos_agg pbi_agg) r all_measures in
  filter (fun kv : string * value => kv.1 ∈ column_order dims all_measures) r.

(** No cell of the column is text. *)
Definition numeric_col (agg : Table) (m : string) : Prop :=
  forall r, r ∈ trows agg -> forall s, cell r m <> VStr s.

(** The value a dimension column shows for a key: the source aggregate's
    cell, and the target aggregate's where the source has none. *)
Definition dim_value (cognos_agg pbi_agg : Table) (d : string) (key : value)
  : value :=
  if isna (agg_value cognos_agg d key)
  then agg_value pbi_agg d key
  else agg_value cognos_agg d key.

(** The difference a measure shows for a key. *)
Definition diff_value (cognos_agg pbi_agg : Table) (m : string) (key : value)
  : value :=
  VNum (num_of (agg_value pbi_agg m key) - num_of (agg_value cognos_agg m key)).



(** A label the report writes itself. *)
Definition generated_label (ms : list string) (c : string) : Prop :=
  c = "presence"
  \/ exists m, m ∈ ms /\
       (c = m +:+ "_Cognos" \/ c = m +:+ "_PBI" \/ c = m +:+ "_Diff").



(** The last character of a string. *)
Fixpoint last_char (s : string) : option ascii :=
  match s with
  | EmptyString => None
  | String c s' =>
      match last_char s' with
      | None => Some c
      | o => o
      end
  end.

(** The number a string of decimal digits writes, read left to right. *)
Fixpoint digits_value (acc : Z) (s : string) : Z :=
  match s with
  | EmptyString => acc
  | String c s' => digits_value (10 * acc + Py.digit_value c) s'
  end.

(** The string of [n] zeros. *)
Fixpoint zeros (n : nat) : string :=
  match n with
  | O => ""
  | S n' => String "0" (zeros n')
  end.

(** The label a dataset has at a position; the padding of the checklist
    where it has none. *)
Definition label_at (df : DataFrame) (i : nat) : string :=
  default "" (columns df !! i).

(** What [strip_leading_zeros] tests: the text without the whitespace
    around it and the zeros in front of it. *)
Definition stripped (s : string) : string :=
  Py.lstrip_char "0" (Py.strip s).


(** The two aggregates hold the same keys. *)
Definition same_keys (ca pa : Table) : Prop :=
  forall key, key ∈ getitem ca "unique_key" <-> key ∈ getitem pa "unique_key".



(** A text cell that upper-casing leaves as it is. *)
Definition upper_text (v : value) : Prop :=
  match v with
  | VStr s => Py.upper s = s
  | _ => False
  end.

#[global] Instance upper_text_dec (v : value) : Decision (upper_text v).
Proof. destruct v; apply _. Defined.


(** ** Further example datasets *)

Definition empty_frame : DataFrame :=
  {| columns := []; dtypes := ∅; rows := [] |}.

(** What a cleaning returned, and what a normalisation returned. *)
Definition frame_of (r : result DataFrame) : DataFrame :=
  match r with Ok df => df | Raise _ => empty_frame end.

Definition normalised (df : DataFrame) : DataFrame :=
  match upper_strip_objects df with inr df' => df' | inl _ => empty_frame end.

(** Two datasets all of whose columns are numeric. *)
Definition qty_df : DataFrame :=
  frame [("Qty", DNumber); ("Price", DNumber)]
        [[VNum 1; VNum 2]; [VNum 3; VNum 4]].

Definition qty_run : outcome := generate_validation_report qty_df qty_df.




(** A sheet with a superscript two in a text cell, and a workbook that has
    it beside the two sheets of the end-to-end example. *)
Definition notes_df : DataFrame :=
  frame [("Note", DObject)] [[VStr (String (ascii_of_N 178) "")]].

Definition notes_book : list (string * DataFrame) :=
  [("Cognos", ex_cognos); ("PBI", ex_pbi); ("Notes", notes_df)].

(** A column of codes, one of them made of digits. *)
Definition codes_df : DataFrame :=
  frame [("Code", DObject); ("Sales", DNumber)]
        [[VStr "A12"; VNum 10]; [VStr "00045"; VNum 20]].





(** The summary of the end-to-end example. *)
Definition ex_summary : Table :=
  {| tcols := ["Diff Column Name"; "Sum of Difference"];
     trows := [summary_row "Sales_Diff" (VNum (-40));
               summary_row "All rows present in both" (VStr "No")] |}.

(** The column of codes, cleaned, and then normalised. *)
Definition codes_cleaned : DataFrame := frame_of (applymap_strip codes_df).

Definition codes_ready : DataFrame := normalised codes_cleaned.

(** A workbook whose first sheet is named in lower case. *)
Definition lower_book : list (string * DataFrame) :=
  [("cognos", ex_cognos); ("PBI", ex_pbi)].

(** The sheets of a cleaning that returned. *)
Definition sheets_of (c : cleaning) : gmap string DataFrame :=
  match cleaned_data c with
  | Ok cleaned_data => cleaned_data
  | Raise _ => ∅
  end.

(** * Properties *)

(** ** Strings *)

Section StringFacts.

Lemma append_cons (c : ascii) (s t : string) :
  String c s +:+ t = String c (s +:+ t).
Proof. reflexivity. Qed.

Lemma append_nil_l (t : string) : "" +:+ t = t.
Proof. reflexivity. Qed.

Lemma length_append (s t : string) :
  String.length (s +:+ t) = (String.length s + String.length t)%nat.
Proof.
  induction s as [|c s IH]; [done|].
  rewrite append_cons. simpl. by rewrite IH.
Qed.

(** Appending the same end to two strings gives the same string only if
    the two strings are the same. *)
Lemma append_inj_l (s1 s2 t : string) : s1 +:+ t = s2 +:+ t -> s1 = s2.
Proof.
  revert s2. induction s1 as [|c s1 IH]; intros [|c' s2] H.
  - done.
  - apply (f_equal String.length) in H.
    rewrite append_nil_l, append_cons in H. simpl in H.
    rewrite length_append in H. lia.
  - apply (f_equal String.length) in H.
    rewrite append_nil_l, append_cons in H. simpl in H.
    rewrite length_append in H. lia.
  - rewrite !append_cons in H. injection H as -> H. f_equal. by apply IH.
Qed.

Lemma last_char_append (s t : string) :
  t <> "" -> last_char (s +:+ t) = last_char t.
Proof.
  intros Ht. induction s as [|c s IH]; [done|].
  rewrite append_cons. simpl. rewrite IH.
  destruct t as [|c' t]; [done|]. simpl. by destruct (last_char t).
Qed.






Lemma prefix_map_chars (f : ascii -> ascii) (a s : string) :
  String.prefix a s = true ->
  String.prefix (Py.map_chars f a) (Py.map_chars f s) = true.
Proof.
  revert s. induction a as [|c a IH]; intros [|c' s]; simpl; try done.
  destruct (ascii_dec c c') as [->|]; [|done].
  intros H. destruct (ascii_dec (f c') (f c')); [|done]. by apply IH.
Qed.

Lemma contains_map_chars (f : ascii -> ascii) (a s : string) :
  Py.contains a s = true ->
  Py.contains (Py.map_chars f a) (Py.map_chars f s) = true.
Proof.
  induction s as [|c s IH]; simpl.
  - rewrite !orb_false_r. apply (prefix_map_chars f a "").
  - rewrite !orb_true_iff. intros [H|H].
    + left. apply (prefix_map_chars f a (String c s) H).
    + right. by apply IH.
Qed.

(** A name with [_ID] in it has [_id] in its lower case, and the same for
    [_KEY]: the two last tests of line 60 add nothing to the two before. *)
Lemma contains_ID_lower (col : string) :
  Py.contains "_ID" col = true -> Py.contains "_id" (Py.lower col) = true.
Proof. apply (contains_map_chars Py.lower_char "_ID" col). Qed.

Lemma contains_KEY_lower (col : string) :
  Py.contains "_KEY" col = true -> Py.contains "_key" (Py.lower col) = true.
Proof. apply (contains_map_chars Py.lower_char "_KEY" col). Qed.

End StringFacts.

(** ** Value Normalizer *)

Section Normalizer.

Lemma isdecimal_not_space (c : ascii) :
  Py.isdecimal c = true -> Py.isspace c = false.
Proof.
  unfold Py.isdecimal, Py.isspace.
  rewrite andb_true_iff, !N.leb_le. intros [H1 H2].
  repeat (apply orb_false_intro); rewrite ?andb_false_iff, ?N.leb_gt, ?N.eqb_neq;
    lia.
Qed.

Lemma isdecimal_isdigit (c : ascii) :
  Py.isdecimal c = true -> Py.isdigit_char c = true.
Proof. unfold Py.isdigit_char. by intros ->. Qed.

Lemma all_chars_impl (p q : ascii -> bool) (s : string) :
  (forall c, p c = true -> q c = true) ->
  Py.all_chars p s = true -> Py.all_chars q s = true.
Proof.
  intros Hpq. induction s as [|c s IH]; simpl; [done|].
  rewrite !andb_true_iff. intros [? ?]. split; auto.
Qed.

Lemma rstrip_by_none (p : ascii -> bool) (s : string) :
  Py.all_chars (fun c => negb (p c)) s = true -> Py.rstrip_by p s = s.
Proof.
  induction s as [|c s IH]; simpl; [done|].
  rewrite andb_true_iff, negb_true_iff. intros [Hc Hs].
  rewrite (IH Hs), Hc. by destruct s.
Qed.

Lemma lstrip_by_none (p : ascii -> bool) (s : string) :
  Py.all_chars (fun c => negb (p c)) s = true -> Py.lstrip_by p s = s.
Proof.
  destruct s as [|c s]; simpl; [done|].
  rewrite andb_true_iff, negb_true_iff. by intros [-> _].
Qed.

Lemma strip_digits (s : string) :
  Py.all_chars Py.isdecimal s = true -> Py.strip s = s.
Proof.
  intros H. unfold Py.strip.
  assert (Py.all_chars (fun c => negb (Py.isspace c)) s = true) as Hs.
  { revert H. apply all_chars_impl. intros c Hc.
    by rewrite (isdecimal_not_space c Hc). }
  by rewrite (lstrip_by_none _ _ Hs), (rstrip_by_none _ _ Hs).
Qed.

Lemma lstrip_by_cons (p : ascii -> bool) (c : ascii) (s : string) :
  Py.lstrip_by p (String c s)
  = if p c then Py.lstrip_by p s else String c s.
Proof. reflexivity. Qed.

Lemma lstrip_zeros (n : nat) (c : ascii) (ds : string) :
  c <> "0"%char ->
  Py.lstrip_char "0" (zeros n +:+ String c ds) = String c ds.
Proof.
  intros Hc. unfold Py.lstrip_char. induction n as [|n IH].
  - simpl zeros. rewrite append_nil_l, lstrip_by_cons.
    destruct (Ascii.eqb_spec "0" c) as [<-|]; done.
  - simpl zeros. rewrite append_cons, lstrip_by_cons.
    by rewrite Ascii.eqb_refl.
Qed.

Lemma all_chars_zeros (n : nat) (s : string) :
  Py.all_chars Py.isdecimal s = true ->
  Py.all_chars Py.isdecimal (zeros n +:+ s) = true.
Proof.
  intros H. induction n as [|n IH]; [done|].
  simpl zeros. rewrite append_cons. simpl. exact IH.
Qed.

Lemma int_digits_decimal (s : string) (acc : Z) (seen : bool) :
  Py.all_chars Py.isdecimal s = true ->
  s <> "" \/ seen = true ->
  Py.int_digits acc seen s = Some (digits_value acc s).
Proof.
  revert acc seen. induction s as [|c s IH]; intros acc seen Hall Hne; simpl.
  - destruct Hne as [? | ->]; done.
  - simpl in Hall. apply andb_true_iff in Hall as [-> Hs].
    apply IH; auto.
Qed.

Lemma int_decimal (c : ascii) (ds : string) :
  Py.all_chars Py.isdecimal (String c ds) = true ->
  Py.int (String c ds) = Some (digits_value 0 (String c ds)).
Proof.
  intros Hall. unfold Py.int. rewrite (strip_digits _ Hall).
  assert (Py.isdecimal c = true) as Hc.
  { simpl in Hall. by apply andb_true_iff in Hall as [? _]. }
  destruct (Ascii.eqb_spec c "-") as [->|_]; [done|].
  destruct (Ascii.eqb_spec c "+") as [->|_]; [done|].
  apply int_digits_decimal; auto.
Qed.

(** The main case of the contract: leading zeros in front of a number
    that does not start with a zero are dropped and the rest is read as
    an integer. *)
Lemma strip_leading_zeros_digits (n : nat) (c : ascii) (ds : string) :
  Py.isdecimal c = true ->
  c <> "0"%char ->
  Py.all_chars Py.isdecimal ds = true ->
  strip_leading_zeros (VStr (zeros n +:+ String c ds))
  = Ok (VNum (digits_value 0 (String c ds))).
Proof.
  intros Hc Hc0 Hds.
  assert (Py.all_chars Py.isdecimal (String c ds) = true) as Hall.
  { simpl. by rewrite Hc. }
  unfold strip_leading_zeros.
  rewrite (strip_digits _ (all_chars_zeros n _ Hall)).
  rewrite (lstrip_zeros n c ds Hc0).
  assert (Py.isdigit (String c ds) = true) as ->.
  { unfold Py.isdigit. revert Hall. apply all_chars_impl, isdecimal_isdigit. }
  unfold Py.or_. by rewrite (int_decimal c ds Hall).
Qed.

Example strip_leading_zeros_00045 :
  strip_leading_zeros (VStr "00045") = Ok (VNum 45).
Proof. reflexivity. Qed.

Example strip_leading_zeros_12A3 :
  strip_leading_zeros (VStr "12A3") = Ok (VStr "12A3").
Proof. reflexivity. Qed.

Lemma strip_leading_zeros_not_text (val : value) :
  (forall s, val <> VStr s) -> strip_leading_zeros val = Ok val.
Proof. intros H. destruct val; [by destruct (H s)|done..]. Qed.

(** A superscript two is a digit for [isdigit] and no literal for [int]:
    the call raises. *)
Example strip_leading_zeros_superscript :
  strip_leading_zeros (VStr (String (ascii_of_N 178) ""))
  = Raise (ValueError "invalid literal for int() with base 10").
Proof. reflexivity. Qed.

(** C2. On a string of zeros only, [lstrip("0")] leaves the empty string,
    which is not [isdigit]: the guard of line 11 fails, [or "0"] on line 12
    is never reached with an empty string, and the text comes back as it
    was, not as the integer 0. *)
Theorem strip_leading_zeros_all_zeros :
  strip_leading_zeros (VStr "000") = Ok (VStr "000")
  /\ strip_leading_zeros (VStr "000") <> Ok (VNum 0).
Proof. split; [reflexivity | discriminate]. Qed.

(** The same for any number of zeros. *)
Lemma strip_leading_zeros_zeros (n : nat) :
  strip_leading_zeros (VStr (zeros n)) = Ok (VStr (zeros n)).
Proof.
  unfold strip_leading_zeros.
  assert (Py.all_chars Py.isdecimal (zeros n) = true) as Hall.
  { induction n; [done|]. simpl. exact IHn. }
  rewrite (strip_digits _ Hall).
  assert (Py.lstrip_char "0" (zeros n) = "") as ->; [|done].
  clear Hall. induction n as [|n IH]; [done|]. exact IH.
Qed.

End Normalizer.

(** ** Dimension Selector *)

Section DimensionSelector.

Lemma is_number_false (d : dtype) : is_number d = false <-> d <> DNumber.
Proof. destruct d; simpl; split; congruence. Qed.

Lemma is_number_true (d : dtype) : is_number d <-> d = DNumber.
Proof. destruct d; simpl; split; try done. Qed.

Lemma first_candidates (cognos_df pbi_df : DataFrame) :
  filter (fun col =>
            col ∈ columns pbi_df ∧
            (dtype_of cognos_df col = DObject
             ∨ Py.contains "_id" (Py.lower col)
             ∨ Py.contains "_key" (Py.lower col)
             ∨ Py.contains "_ID" col ∨ Py.contains "_KEY" col))
         (columns cognos_df)
  = filter (textual_or_id_key cognos_df) (shared_columns cognos_df pbi_df).
Proof.
  unfold shared_columns. rewrite list_filter_filter.
  apply list_filter_iff. intros col. unfold textual_or_id_key.
  split.
  - intros [Hin [H | [H | [H | [H | H]]]]]; split; auto.
    + right. left. apply Is_true_true, contains_ID_lower.
      by apply Is_true_true.
    + right. right. apply Is_true_true, contains_KEY_lower.
      by apply Is_true_true.
  - intros [[H | [H | H]] Hin]; split; auto.
Qed.

Lemma second_candidates (cognos_df pbi_df : DataFrame) :
  filter (fun col =>
            col ∈ columns pbi_df ∧ is_number (dtype_of cognos_df col) = false)
         (columns cognos_df)
  = filter (fun col => dtype_of cognos_df col <> DNumber)
           (shared_columns cognos_df pbi_df).
Proof.
  unfold shared_columns. rewrite list_filter_filter.
  apply list_filter_iff. intros col. rewrite is_number_false. tauto.
Qed.

(** The three comprehensions are the fallback of the specification. *)
Lemma select_dims_spec (cognos_df pbi_df : DataFrame) :
  select_dims cognos_df pbi_df
  = let '(dims, warned) := dimension_selector_spec cognos_df pbi_df in
    (dims, if warned then [st_warning dims] else []).
Proof.
  unfold select_dims, dimension_selector_spec.
  rewrite first_candidates, second_candidates.
  fold (shared_columns cognos_df pbi_df).
  destruct (filter (textual_or_id_key cognos_df) _) as [|d1 l1]; [|done].
  by destruct (filter (fun col => dtype_of cognos_df col <> DNumber) _).
Qed.

(** What the selector returns is made of shared columns, and is empty only
    if no column is shared. *)
Lemma select_dims_shared (cognos_df pbi_df : DataFrame) (d : string) :
  d ∈ (select_dims cognos_df pbi_df).1 ->
  d ∈ shared_columns cognos_df pbi_df.
Proof.
  rewrite select_dims_spec. unfold dimension_selector_spec.
  destruct (filter (textual_or_id_key cognos_df) _) as [|d1 l1] eqn:E1.
  - destruct (filter (fun col => dtype_of cognos_df col <> DNumber) _)
      as [|d2 l2] eqn:E2; simpl; [done|].
    rewrite <- E2. by intros [_ ?]%list_elem_of_filter.
  - simpl. rewrite <- E1. by intros [_ ?]%list_elem_of_filter.
Qed.


(** A shared column with [_key] in its name is always a dimension. *)
Lemma select_dims_key (cognos_df pbi_df : DataFrame) (col : string) :
  col ∈ shared_columns cognos_df pbi_df ->
  Py.contains "_key" (Py.lower col) = true ->
  col ∈ (select_dims cognos_df pbi_df).1.
Proof.
  intros Hin Hkey. rewrite select_dims_spec.
  unfold dimension_selector_spec.
  assert (col ∈ filter (textual_or_id_key cognos_df)
                       (shared_columns cognos_df pbi_df)) as H.
  { apply list_elem_of_filter. split; [|done].
    right. right. by apply Is_true_true. }
  destruct (filter (textual_or_id_key cognos_df) _) as [|d1 l1]; [|done].
  by apply elem_of_nil in H.
Qed.

(** C3. The selector is a function of the two datasets, and it is the
    ordered fallback: the shared columns that are textual in the source or
    carry [_id] or [_key] in their name, whatever the case; if there is
    none, the shared columns that are not numeric; if there is none
    either, all shared columns, and then the warning is shown. *)
Theorem select_dims_fallback (cognos_df pbi_df : DataFrame) :
  select_dims cognos_df pbi_df
  = let '(dims, warned) := dimension_selector_spec cognos_df pbi_df in
    (dims, if warned then [st_warning dims] else []).
Proof. apply select_dims_spec. Qed.

End DimensionSelector.

(** ** The shape of a call of [generate_validation_report] *)

Section Call.

Lemma generate_validation_report_raise (cognos_df pbi_df : DataFrame) :
  (select_dims cognos_df pbi_df).1 = [] ->
  generate_validation_report cognos_df pbi_df
  = {| returned :=
         Raise (ValueError "No common columns found to use as dimensions.");
       cognos_df_after := cognos_df;
       pbi_df_after := pbi_df;
       shown := (select_dims cognos_df pbi_df).2 |}.
Proof.
  unfold generate_validation_report.
  destruct (select_dims cognos_df pbi_df) as [dims msgs]. simpl.
  by intros ->.
Qed.

Lemma generate_validation_report_run (cognos_df pbi_df : DataFrame) :
  let dims := (select_dims cognos_df pbi_df).1 in
  let cognos_df' := fillna_cols cognos_df dims (VStr "NAN") in
  let pbi_df' := fillna_cols pbi_df dims (VStr "NAN") in
  let all_measures := all_measures_of cognos_df' pbi_df' dims in
  let cognos_agg := aggregate cognos_df' dims all_measures in
  let pbi_agg := aggregate pbi_df' dims all_measures in
  dims <> [] ->
  generate_validation_report cognos_df pbi_df
  = {| returned :=
         validation_report ← reconcile cognos_agg pbi_agg dims all_measures;
         Ok (validation_report, cognos_agg, pbi_agg, dims);
       cognos_df_after := cognos_df';
       pbi_df_after := pbi_df';
       shown := (select_dims cognos_df pbi_df).2 ++ [st_info dims] |}.
Proof.
  unfold generate_validation_report.
  destruct (select_dims cognos_df pbi_df) as [dims msgs]. simpl.
  by destruct dims.
Qed.

(** What a returned tuple tells about the call. *)
Lemma generate_validation_report_returned
    (cognos_df pbi_df : DataFrame) (vr ca pa : Table) (dims : list string) :
  returned (generate_validation_report cognos_df pbi_df) = Ok (vr, ca, pa, dims) ->
  let o := generate_validation_report cognos_df pbi_df in
  let all_measures :=
    all_measures_of (cognos_df_after o) (pbi_df_after o) dims in
  dims = (select_dims cognos_df pbi_df).1
  /\ dims <> []
  /\ cognos_df_after o = fillna_cols cognos_df dims (VStr "NAN")
  /\ pbi_df_after o = fillna_cols pbi_df dims (VStr "NAN")
  /\ ca = aggregate (cognos_df_after o) dims all_measures
  /\ pa = aggregate (pbi_df_after o) dims all_measures
  /\ reconcile ca pa dims all_measures = Ok vr.
Proof.
  intros H.
  destruct (decide ((select_dims cognos_df pbi_df).1 = [])) as [E|E].
  { rewrite (generate_validation_report_raise _ _ E) in H. done. }
  cbv zeta. rewrite (generate_validation_report_run _ _ E) in *.
  cbn [returned cognos_df_after pbi_df_after] in *.
  destruct (reconcile _ _ _ _) as [vr'|e] eqn:Hr; [|done].
  simpl in H. injection H as <- <- <- <-.
  by repeat split.
Qed.

End Call.

(** ** The effect of a call on the two input frames *)

Section FrameEffect.



Lemma fillna_cols_dtypes (df : DataFrame) (dims : list string) (v : value)
    (col : string) :
  col ∉ dims -> dtypes (fillna_cols df dims v) !! col = dtypes df !! col.
Proof.
  unfold fillna_cols. simpl. induction dims as [|d dims IH]; [done|].
  intros Hcol. apply not_elem_of_cons in Hcol as [Hne Hcol]. simpl.
  destruct (existsb _ _); [rewrite lookup_insert_ne by done|]; by apply IH.
Qed.



End FrameEffect.

(** ** The order of group keys *)

Section KeyOrder.

Lemma string_compare_refl (s : string) : String.compare s s = Eq.
Proof.
  induction s as [|c s IH]; simpl; [done|].
  unfold Ascii.compare. by rewrite N.compare_refl.
Qed.

Lemma string_compare_lt_trans (s1 s2 s3 : string) :
  String.compare s1 s2 = Lt -> String.compare s2 s3 = Lt ->
  String.compare s1 s3 = Lt.
Proof.
  intros H12 H23.
  assert (String.le s1 s3) as H13.
  { transitivity s2; unfold String.le, String.leb; [by rewrite H12|by rewrite H23]. }
  unfold String.le, String.leb in H13.
  destruct (String.compare s1 s3) eqn:E; [|done|done].
  apply String.compare_eq_iff in E as ->.
  rewrite String.compare_antisym, H23 in H12. done.
Qed.

Lemma value_cmp_refl (a : value) : value_cmp a a = Eq.
Proof.
  destruct a; simpl; [apply string_compare_refl|apply Z.compare_refl|done].
Qed.

Lemma value_cmp_eq (a b : value) : value_cmp a b = Eq -> a = b.
Proof.
  destruct a, b; simpl; try done.
  - by intros ->%String.compare_eq_iff.
  - by intros ->%Z.compare_eq.
Qed.

Lemma value_cmp_antisym (a b : value) :
  value_cmp b a = CompOpp (value_cmp a b).
Proof.
  destruct a, b; simpl; try done.
  - apply String.compare_antisym.
  - apply Z.compare_antisym.
Qed.

Lemma value_cmp_lt_trans (a b c : value) :
  value_cmp a b = Lt -> value_cmp b c = Lt -> value_cmp a c = Lt.
Proof.
  destruct a, b, c; simpl; try done.
  - apply string_compare_lt_trans.
  - rewrite !Z.compare_lt_iff. lia.
Qed.

Lemma key_cmp_refl (k : list value) : key_cmp k k = Eq.
Proof. induction k as [|a k IH]; simpl; [done|]. by rewrite value_cmp_refl. Qed.

Lemma key_cmp_eq (k1 k2 : list value) : key_cmp k1 k2 = Eq -> k1 = k2.
Proof.
  revert k2. induction k1 as [|a k1 IH]; intros [|b k2]; simpl; try done.
  destruct (value_cmp a b) eqn:E; try done.
  apply value_cmp_eq in E as ->. intros H. f_equal. by apply IH.
Qed.

Lemma key_cmp_antisym (k1 k2 : list value) :
  key_cmp k2 k1 = CompOpp (key_cmp k1 k2).
Proof.
  revert k2. induction k1 as [|a k1 IH]; intros [|b k2]; simpl; try done.
  rewrite (value_cmp_antisym a b).
  destruct (value_cmp a b); simpl; auto.
Qed.

Lemma key_cmp_lt_trans (k1 k2 k3 : list value) :
  key_cmp k1 k2 = Lt -> key_cmp k2 k3 = Lt -> key_cmp k1 k3 = Lt.
Proof.
  revert k2 k3.
  induction k1 as [|a k1 IH]; intros [|b k2] [|c k3]; simpl; try done.
  destruct (value_cmp a b) eqn:Eab; try done.
  - apply value_cmp_eq in Eab as ->.
    destruct (value_cmp b c); try done. apply IH.
  - intros _. destruct (value_cmp b c) eqn:Ebc; try done.
    + apply value_cmp_eq in Ebc as <-. by rewrite Eab.
    + by rewrite (value_cmp_lt_trans a b c Eab Ebc).
Qed.

#[global] Instance key_le_total : Total key_le.
Proof.
  intros k1 k2. unfold key_le. rewrite (key_cmp_antisym k1 k2).
  destruct (key_cmp k1 k2); simpl; [left|left|right]; congruence.
Qed.

#[global] Instance key_le_antisymm : AntiSymm eq key_le.
Proof.
  intros k1 k2. unfold key_le. rewrite (key_cmp_antisym k1 k2).
  destruct (key_cmp k1 k2) eqn:E; simpl; try congruence.
  intros _ _. by apply key_cmp_eq.
Qed.

#[global] Instance key_le_trans : Transitive key_le.
Proof.
  intros k1 k2 k3. unfold key_le.
  destruct (key_cmp k1 k2) eqn:E12; try congruence.
  - apply key_cmp_eq in E12 as ->. done.
  - intros _. destruct (key_cmp k2 k3) eqn:E23; try congruence.
    + apply key_cmp_eq in E23 as <-. by rewrite E12.
    + by rewrite (key_cmp_lt_trans k1 k2 k3 E12 E23).
Qed.


End KeyOrder.

(** ** Aggregator *)

Section Aggregator.




Lemma elem_of_group_keys (rs : list row) (dims : list string) (k : list value) :
  k ∈ group_keys rs dims
  <-> (VNaN ∉ k) /\ exists r, r ∈ rs /\ group_key dims r = k.
Proof.
  unfold group_keys.
  rewrite merge_sort_Permutation, elem_of_remove_dups, list_elem_of_filter.
  rewrite list_elem_of_fmap.
  split; intros [Hk (r & H1 & H2)]; split; eauto.
Qed.




End Aggregator.

(** ** Column labels the report generates *)

Section Labels.

Lemma label_not_key (m sfx : string) :
  sfx = "_Cognos" \/ sfx = "_PBI" \/ sfx = "_Diff" ->
  m +:+ sfx <> "unique_key" /\ m +:+ sfx <> "presence".
Proof.
  intros Hs. split; intros E; apply (f_equal last_char) in E;
    rewrite last_char_append in E;
    destruct Hs as [-> | [-> | ->]]; done.
Qed.

(** Two generated labels are the same label only for the same measure and
    the same suffix. *)
Lemma label_inj (m1 m2 s1 s2 : string) :
  s1 = "_Cognos" \/ s1 = "_PBI" \/ s1 = "_Diff" ->
  s2 = "_Cognos" \/ s2 = "_PBI" \/ s2 = "_Diff" ->
  m1 +:+ s1 = m2 +:+ s2 -> m1 = m2 /\ s1 = s2.
Proof.
  intros H1 H2 E.
  assert (s1 = s2) as <-.
  { apply (f_equal last_char) in E.
    rewrite !last_char_append in E;
      destruct H1 as [-> | [-> | ->]], H2 as [-> | [-> | ->]]; done. }
  split; [|done]. by apply append_inj_l in E.
Qed.


End Labels.

(** ** Rows as records *)

Section Rows.

Lemma cell_insert (r : row) (c c' : string) (v : value) :
  cell (<[c := v]> r) c' = if decide (c = c') then v else cell r c'.
Proof.
  unfold cell. destruct (decide (c = c')) as [->|Hne].
  - by rewrite lookup_insert_eq.
  - by rewrite lookup_insert_ne.
Qed.

Lemma cell_insert_eq (r : row) (c : string) (v : value) :
  cell (<[c := v]> r) c = v.
Proof. rewrite cell_insert. by rewrite decide_True. Qed.

Lemma cell_insert_ne (r : row) (c c' : string) (v : value) :
  c <> c' -> cell (<[c := v]> r) c' = cell r c'.
Proof. intros H. rewrite cell_insert. by rewrite decide_False. Qed.

Lemma cell_filter (cols : list string) (r : row) (c : string) :
  cell (filter (fun kv : string * value => kv.1 ∈ cols) r) c
  = if decide (c ∈ cols) then cell r c else VNaN.
Proof.
  unfold cell. destruct (r !! c) as [v|] eqn:Hr.
  - destruct (decide (c ∈ cols)) as [Hin|Hin].
    + by rewrite (map_lookup_filter_Some_2 _ r c v Hr Hin).
    + rewrite (proj2 (map_lookup_filter_None _ r c)); [done|].
      right. intros v' _. done.
  - rewrite (proj2 (map_lookup_filter_None _ r c)); [|by left].
    by destruct (decide (c ∈ cols)).
Qed.

(** A loop that writes, for each label of a list, a value that depends on
    the label only. *)
Lemma cell_foldl_insert (g : string -> value) (l : list string) (r : row)
    (c : string) :
  cell (foldl (fun r' d => <[d := g d]> r') r l) c
  = if decide (c ∈ l) then g c else cell r c.
Proof.
  revert r. induction l as [|d l IH]; intros r; simpl.
  - destruct (decide (c ∈ [])) as [H|]; [by apply elem_of_nil in H|done].
  - rewrite IH. destruct (decide (c ∈ l)) as [Hin|Hin].
    + destruct (decide (c ∈ d :: l)) as [_|H]; [done|].
      by destruct H; apply list_elem_of_further.
    + rewrite cell_insert. destruct (decide (d = c)) as [->|Hne].
      * destruct (decide (c ∈ c :: l)) as [_|H]; [done|].
        by destruct H; apply list_elem_of_here.
      * destruct (decide (c ∈ d :: l)) as [H|_]; [|done].
        apply elem_of_cons in H as [?|?]; done.
Qed.

Lemma zip_with_fmap_same {A B C : Type} (f : A -> B -> C) (g : A -> B)
    (l : list A) :
  zip_with f l (g <$> l) = (fun x => f x (g x)) <$> l.
Proof. induction l as [|x l IH]; csimpl; [done|]. by rewrite IH. Qed.

Lemma traverse_Ok {A B : Type} (f : A -> result B) (g : A -> B) (l : list A) :
  (forall x, x ∈ l -> f x = Ok (g x)) -> traverse f l = Ok (g <$> l).
Proof.
  induction l as [|x l IH]; intros H; [done|].
  cbn [traverse]. rewrite (H x) by apply list_elem_of_here.
  rewrite IH; [done|]. intros y Hy. apply H. by apply list_elem_of_further.
Qed.

Lemma setitem_trows (t : Table) (c : string) (g : row -> value) :
  trows (setitem t c (g <$> trows t))
  = (fun r => <[c := g r]> r) <$> trows t.
Proof. unfold setitem. cbn [trows]. apply zip_with_fmap_same. Qed.

(** [dict(zip(..))] over two columns of the same rows: a key finds the
    cell of the last row that carries it. *)
Lemma dict_zip_last {A : Type} (f g : A -> value) (l : list A) (k : value) :
  dict_zip (f <$> l) (g <$> l) !! k
  = g <$> last (filter (fun x => f x = k) l).
Proof.
  unfold dict_zip. induction l as [|x l IH] using rev_ind; [done|].
  rewrite !fmap_app. simpl.
  rewrite zip_with_app by (by rewrite !length_fmap).
  rewrite foldl_app. simpl. rewrite filter_app.
  destruct (decide (f x = k)) as [E|E].
  - rewrite E, lookup_insert_eq.
    rewrite (filter_cons_True _ x []) by done.
    rewrite filter_nil. by rewrite last_snoc.
  - rewrite lookup_insert_ne by done. rewrite IH.
    rewrite (filter_cons_False _ x []) by done.
    by rewrite filter_nil, app_nil_r.
Qed.

End Rows.

(** ** Reconciler, row by row *)

Section Reconciler.

Variables cognos_agg pbi_agg : Table.

Lemma agg_lookup (agg : Table) (col : string) (key : value) :
  default VNaN
    (dict_zip (getitem agg "unique_key") (getitem agg col) !! key)
  = agg_value agg col key.
Proof.
  unfold getitem, agg_value, agg_row. rewrite dict_zip_last.
  by destruct (last _).
Qed.

Lemma series_map_getitem (agg : Table) (col : string) (t : Table) (c : string) :
  series_map (dict_zip (getitem agg "unique_key") (getitem agg col))
             (getitem t c)
  = (fun r => agg_value agg col (cell r c)) <$> trows t.
Proof.
  unfold series_map, getitem at 3. rewrite <- list_fmap_compose.
  apply list_fmap_ext. intros _ r _. simpl. apply agg_lookup.
Qed.

Lemma agg_row_elem (agg : Table) (key : value) (r : row) :
  agg_row agg key = Some r -> r ∈ trows agg /\ cell r "unique_key" = key.
Proof.
  unfold agg_row. intros H%last_Some_elem_of.
  apply list_elem_of_filter in H. tauto.
Qed.

Lemma agg_row_None (agg : Table) (key : value) :
  agg_row agg key = None <-> key ∉ getitem agg "unique_key".
Proof.
  unfold agg_row, getitem. rewrite last_None, list_elem_of_fmap. split.
  - intros Hnil (r & -> & Hr).
    assert (r ∈ filter (fun r' => cell r' "unique_key" = cell r "unique_key")
                       (trows agg)) as Hin
      by (by apply list_elem_of_filter).
    rewrite Hnil in Hin. by apply elem_of_nil in Hin.
  - intros Hnot. destruct (filter _ _) as [|r l] eqn:E; [done|].
    assert (r ∈ filter (fun r' => cell r' "unique_key" = key) (trows agg))
      as [Hk Hr]%list_elem_of_filter
      by (rewrite E; apply list_elem_of_here).
    destruct Hnot. by exists r.
Qed.

Lemma agg_value_absent (agg : Table) (col : string) (key : value) :
  key ∉ getitem agg "unique_key" -> agg_value agg col key = VNaN.
Proof. intros H%agg_row_None. unfold agg_value. by rewrite H. Qed.

Lemma agg_value_numeric (agg : Table) (m : string) (key : value) :
  numeric_col agg m -> forall s, agg_value agg m key <> VStr s.
Proof.
  intros Hnum s. unfold agg_value.
  destruct (agg_row agg key) as [r|] eqn:E; simpl; [|done].
  apply agg_row_elem in E as [Hr _]. by apply Hnum.
Qed.

Lemma value_sub_fill (a b : value) :
  (forall s, a <> VStr s) -> (forall s, b <> VStr s) ->
  value_sub (if isna a then VNum 0 else a) (if isna b then VNum 0 else b)
  = Ok (VNum (num_of a - num_of b)).
Proof.
  intros Ha Hb.
  destruct a as [s| |]; [by destruct (Ha s)| |];
    (destruct b as [s| |]; [by destruct (Hb s)| |]); simpl; done.
Qed.

Lemma zip_fmap_same {A B C : Type} (f : A -> B) (g : A -> C) (l : list A) :
  zip (f <$> l) (g <$> l) = (fun x => (f x, g x)) <$> l.
Proof. induction l as [|x l IH]; csimpl; [done|]. by rewrite IH. Qed.

Lemma fill_dimension_trows (t : Table) (dim : string) :
  trows (fill_dimension cognos_agg pbi_agg t dim)
  = (fun r => (fill_dimension_row cognos_agg pbi_agg) r dim) <$> trows t.
Proof.
  unfold fill_dimension.
  rewrite (series_map_getitem cognos_agg dim t "unique_key").
  set (t1 := setitem t dim _).
  rewrite (series_map_getitem pbi_agg dim t1 "unique_key").
  unfold series_fillna, getitem.
  rewrite zip_with_zip, zip_fmap_same, <- list_fmap_compose.
  rewrite (setitem_trows t1 dim).
  unfold t1. rewrite setitem_trows, <- list_fmap_compose.
  by apply list_fmap_ext.
Qed.

Lemma foldl_fill_dimension_trows (t : Table) (dims : list string) :
  trows (foldl (fill_dimension cognos_agg pbi_agg) t dims)
  = (fun r => foldl (fill_dimension_row cognos_agg pbi_agg) r dims) <$> trows t.
Proof.
  revert t. induction dims as [|d dims IH]; intros t; simpl.
  - by rewrite list_fmap_id.
  - rewrite IH, fill_dimension_trows, <- list_fmap_compose.
    by apply list_fmap_ext.
Qed.

Lemma add_measure_Ok (t : Table) (m : string) :
  numeric_col cognos_agg m -> numeric_col pbi_agg m ->
  exists t', add_measure cognos_agg pbi_agg t m = Ok t'
             /\ trows t' = (fun r => (add_measure_row cognos_agg pbi_agg) r m) <$> trows t.
Proof.
  intros Hc Hp. unfold add_measure.
  rewrite (series_map_getitem cognos_agg m t "unique_key").
  set (t1 := setitem t (m +:+ "_Cognos") _).
  rewrite (series_map_getitem pbi_agg m t1 "unique_key").
  set (t2 := setitem t1 (m +:+ "_PBI") _).
  assert (trows t2
          = (fun r =>
               <[m +:+ "_PBI" :=
                   agg_value pbi_agg m
                     (cell (<[m +:+ "_Cognos" :=
                                agg_value cognos_agg m (cell r "unique_key")]> r)
                           "unique_key")]>
                 (<[m +:+ "_Cognos" :=
                      agg_value cognos_agg m (cell r "unique_key")]> r))
            <$> trows t) as Ht2.
  { unfold t2. rewrite setitem_trows. unfold t1.
    rewrite setitem_trows, <- list_fmap_compose. by apply list_fmap_ext. }
  assert (series_sub
            (fillna_scalar (VNum 0) (getitem t2 (m +:+ "_PBI")))
            (fillna_scalar (VNum 0) (getitem t2 (m +:+ "_Cognos")))
          = Ok ((fun r => VNum (num_of (cell r (m +:+ "_PBI"))
                                - num_of (cell r (m +:+ "_Cognos"))))
                <$> trows t2)) as ->.
  { unfold series_sub, fillna_scalar, getitem.
    rewrite <- !list_fmap_compose, zip_fmap_same.
    assert (forall {A B C : Type} (f : B -> result C) (g : A -> B) (l : list A),
              traverse f (g <$> l) = traverse (fun x => f (g x)) l) as Htr.
    { intros A B C f g l. induction l as [|x l IH]; csimpl; [done|].
      by rewrite IH. }
    rewrite Htr. apply traverse_Ok. intros r Hr. simpl.
    rewrite Ht2 in Hr. apply list_elem_of_fmap in Hr as (r0 & -> & _).
    apply value_sub_fill; intros s.
    - rewrite cell_insert_eq. by apply agg_value_numeric.
    - rewrite cell_insert_ne, cell_insert_eq.
      + by apply agg_value_numeric.
      + intros E. by apply label_inj in E as [_ ?]; auto. }
  eexists. split; [reflexivity|].
  rewrite setitem_trows, Ht2, <- list_fmap_compose.
  by apply list_fmap_ext.
Qed.

Lemma foldlM_add_measure_Ok (t : Table) (ms : list string) :
  (forall m, m ∈ ms -> numeric_col cognos_agg m /\ numeric_col pbi_agg m) ->
  exists t', foldlM (add_measure cognos_agg pbi_agg) t ms = Ok t'
             /\ trows t' = (fun r => foldl (add_measure_row cognos_agg pbi_agg) r ms) <$> trows t.
Proof.
  revert t. induction ms as [|m ms IH]; intros t Hnum; simpl.
  - exists t. by rewrite list_fmap_id.
  - destruct (Hnum m) as [Hc Hp]; [apply list_elem_of_here|].
    destruct (add_measure_Ok t m Hc Hp) as (t1 & -> & Ht1). simpl.
    destruct (IH t1) as (t' & -> & Ht').
    { intros m' Hm'. apply Hnum. by apply list_elem_of_further. }
    exists t'. split; [done|].
    rewrite Ht', Ht1, <- list_fmap_compose. by apply list_fmap_ext.
Qed.

(** With numeric measure columns in both aggregates the Reconciler returns,
    and its table is made of one [report_row] per unified key. *)
Lemma reconcile_rows (dims all_measures : list string) :
  (forall m, m ∈ all_measures ->
             numeric_col cognos_agg m /\ numeric_col pbi_agg m) ->
  reconcile cognos_agg pbi_agg dims all_measures
  = Ok {| tcols := column_order dims all_measures;
          trows := (report_row cognos_agg pbi_agg) dims all_measures
                   <$> unified_keys cognos_agg pbi_agg |}.
Proof.
  intros Hnum. unfold reconcile.
  set (t0 := {| tcols := ["unique_key"]; trows := _ |}).
  set (t1 := foldl _ t0 dims).
  set (t2 := setitem t1 "presence" _).
  destruct (foldlM_add_measure_Ok t2 all_measures Hnum) as (t3 & -> & Ht3).
  simpl. unfold select. f_equal. f_equal.
  rewrite Ht3. unfold t2, getitem.
  rewrite <- (list_fmap_compose (fun r => cell r "unique_key")).
  rewrite setitem_trows.
  unfold t1. rewrite foldl_fill_dimension_trows. unfold t0. cbn [trows].
  rewrite <- !list_fmap_compose. by apply list_fmap_ext.
Qed.

End Reconciler.

(** ** The cells of a row of the report *)

Section ReportCells.

Variables cognos_agg pbi_agg : Table.

#[local] Abbreviation fill_row := (fill_dimension_row cognos_agg pbi_agg).
#[local] Abbreviation measure_row := (add_measure_row cognos_agg pbi_agg).

Lemma fill_dimension_row_insert (r : row) (d : string) :
  d <> "unique_key" ->
  fill_row r d = <[d := dim_value cognos_agg pbi_agg d (cell r "unique_key")]> r.
Proof.
  intros Hd. unfold fill_dimension_row, dim_value.
  rewrite cell_insert_eq, cell_insert_ne by done.
  by rewrite insert_insert_eq.
Qed.

Lemma foldl_fill_dimension_row_insert (dims : list string) (r : row) (key : value) :
  "unique_key" ∉ dims -> cell r "unique_key" = key ->
  foldl fill_row r dims = foldl (fun r' d => <[d := dim_value cognos_agg pbi_agg d key]> r') r dims.
Proof.
  revert r. induction dims as [|d dims IH]; intros r Hnot Hr; simpl; [done|].
  apply not_elem_of_cons in Hnot as [Hne Hnot].
  rewrite fill_dimension_row_insert, Hr by done.
  apply IH; [done|]. by rewrite cell_insert_ne.
Qed.

Lemma cell_measure_row (r : row) (m c : string) :
  cell (measure_row r m) c
  = if decide (c = m +:+ "_Diff") then diff_value cognos_agg pbi_agg m (cell r "unique_key")
    else if decide (c = m +:+ "_PBI")
         then agg_value pbi_agg m (cell r "unique_key")
         else if decide (c = m +:+ "_Cognos")
              then agg_value cognos_agg m (cell r "unique_key")
              else cell r c.
Proof.
  unfold add_measure_row, diff_value.
  assert (m +:+ "_Cognos" <> "unique_key") as H1 by (apply label_not_key; auto).
  assert (m +:+ "_PBI" <> m +:+ "_Cognos") as H2
    by (intros E; by apply label_inj in E as [_ ?]; auto).
  rewrite !cell_insert.
  rewrite (decide_False (P := m +:+ "_Cognos" = "unique_key")) by done.
  rewrite (decide_True (P := m +:+ "_PBI" = m +:+ "_PBI")) by done.
  rewrite (decide_False (P := m +:+ "_PBI" = m +:+ "_Cognos")) by done.
  rewrite (decide_True (P := m +:+ "_Cognos" = m +:+ "_Cognos")) by done.
  repeat case_decide; try done; congruence.
Qed.

Lemma cell_measure_row_other (r : row) (m c : string) :
  c <> m +:+ "_Cognos" -> c <> m +:+ "_PBI" -> c <> m +:+ "_Diff" ->
  cell (measure_row r m) c = cell r c.
Proof.
  intros H1 H2 H3. rewrite cell_measure_row.
  by rewrite !decide_False.
Qed.

Lemma cell_measure_row_key (r : row) (m : string) :
  cell (measure_row r m) "unique_key" = cell r "unique_key".
Proof.
  apply cell_measure_row_other; intros E; symmetry in E; revert E;
    apply label_not_key; auto.
Qed.

Lemma cell_foldl_measure_row_key (ms : list string) (r : row) :
  cell (foldl measure_row r ms) "unique_key" = cell r "unique_key".
Proof.
  revert r. induction ms as [|m ms IH]; intros r; simpl; [done|].
  by rewrite IH, cell_measure_row_key.
Qed.

(** A label that no measure of the list generates is left alone. *)
Lemma cell_foldl_measure_row_other (ms : list string) (r : row) (c : string) :
  (forall m, m ∈ ms ->
     c <> m +:+ "_Cognos" /\ c <> m +:+ "_PBI" /\ c <> m +:+ "_Diff") ->
  cell (foldl measure_row r ms) c = cell r c.
Proof.
  revert r. induction ms as [|m ms IH]; intros r H; simpl; [done|].
  rewrite IH by (intros m' Hm'; apply H; by apply list_elem_of_further).
  destruct (H m) as (H1 & H2 & H3); [apply list_elem_of_here|].
  by apply cell_measure_row_other.
Qed.

(** The three labels of a measure of the list end up with the values of
    that measure. *)
Lemma cell_foldl_measure_row (ms : list string) (r : row) (m : string) :
  m ∈ ms ->
  let r' := foldl measure_row r ms in
  let key := cell r "unique_key" in
  cell r' (m +:+ "_Cognos") = agg_value cognos_agg m key
  /\ cell r' (m +:+ "_PBI") = agg_value pbi_agg m key
  /\ cell r' (m +:+ "_Diff") = diff_value cognos_agg pbi_agg m key.
Proof.
  intros Hm. cbv zeta.
  induction ms as [|m0 ms IH] using rev_ind; [by apply elem_of_nil in Hm|].
  rewrite foldl_snoc, !cell_measure_row, cell_foldl_measure_row_key.
  destruct (decide (m0 = m)) as [->|Hne].
  - rewrite (decide_False (P := m +:+ "_Cognos" = m +:+ "_Diff"))
      by (intros E; by apply label_inj in E as [_ ?]; auto).
    rewrite (decide_False (P := m +:+ "_Cognos" = m +:+ "_PBI"))
      by (intros E; by apply label_inj in E as [_ ?]; auto).
    rewrite (decide_False (P := m +:+ "_PBI" = m +:+ "_Diff"))
      by (intros E; by apply label_inj in E as [_ ?]; auto).
    by rewrite !decide_True.
  - assert (forall s1 s2,
              s1 = "_Cognos" \/ s1 = "_PBI" \/ s1 = "_Diff" ->
              s2 = "_Cognos" \/ s2 = "_PBI" \/ s2 = "_Diff" ->
              m +:+ s1 <> m0 +:+ s2) as Hlab.
    { intros s1 s2 H1 H2 E. apply label_inj in E as [? _]; auto. }
    rewrite !decide_False by (apply Hlab; auto).
    apply IH. apply elem_of_app in Hm as [Hm|Hm]; [done|].
    apply list_elem_of_singleton in Hm. congruence.
Qed.

Lemma elem_of_column_order (dims ms : list string) (c : string) :
  c ∈ column_order dims ms
  <-> c = "unique_key" \/ c ∈ dims \/ c = "presence"
      \/ exists m, m ∈ ms /\
           (c = m +:+ "_Cognos" \/ c = m +:+ "_PBI" \/ c = m +:+ "_Diff").
Proof.
  unfold column_order.
  rewrite !elem_of_app, !list_elem_of_singleton.
  assert (c ∈ concat ((fun measure =>
                         [measure +:+ "_Cognos"; measure +:+ "_PBI";
                          measure +:+ "_Diff"]) <$> ms)
          <-> exists m, m ∈ ms /\
                (c = m +:+ "_Cognos" \/ c = m +:+ "_PBI" \/ c = m +:+ "_Diff"))
    as ->; [|tauto].
  induction ms as [|m ms IH]; csimpl.
  - split; [by intros ?%elem_of_nil|]. by intros (m & ?%elem_of_nil & _).
  - rewrite !elem_of_cons, IH. split.
    + intros [H | [H | [H | (m' & Hm' & H)]]].
      * exists m. split; [apply list_elem_of_here|]; auto.
      * exists m. split; [apply list_elem_of_here|]; auto.
      * exists m. split; [apply list_elem_of_here|]; auto.
      * exists m'. split; [by apply list_elem_of_further|]; auto.
    + intros (m' & Hm' & H). apply elem_of_cons in Hm' as [-> | Hm'];
        [tauto|].
      right. right. right. by exists m'.
Qed.

Section Row.

Variables (dims ms : list string) (key : value).
Hypothesis Hkey : "unique_key" ∉ dims.

#[local] Abbreviation R := (report_row cognos_agg pbi_agg dims ms key).

Lemma report_row_after_dims :
  cell (foldl fill_row {["unique_key" := key]} dims) "unique_key" = key.
Proof.
  rewrite (foldl_fill_dimension_row_insert dims _ key Hkey).
  - rewrite cell_foldl_insert, decide_False by done.
    unfold cell. by rewrite lookup_singleton_eq.
  - unfold cell. by rewrite lookup_singleton_eq.
Qed.

Lemma report_row_key : cell R "unique_key" = key.
Proof.
  unfold report_row. rewrite cell_filter.
  rewrite decide_True by (apply elem_of_column_order; auto).
  rewrite cell_foldl_measure_row_key, cell_insert_ne by done.
  apply report_row_after_dims.
Qed.

Lemma report_row_presence :
  cell R "presence" = presence_of cognos_agg pbi_agg key.
Proof.
  unfold report_row. rewrite cell_filter.
  rewrite decide_True by (apply elem_of_column_order; auto).
  rewrite cell_foldl_measure_row_other.
  - by rewrite cell_insert_eq, report_row_after_dims.
  - intros m _. repeat split; intros E; symmetry in E; revert E;
      apply label_not_key; auto.
Qed.

Lemma report_row_measure (m : string) :
  m ∈ ms ->
  cell R (m +:+ "_Cognos") = agg_value cognos_agg m key
  /\ cell R (m +:+ "_PBI") = agg_value pbi_agg m key
  /\ cell R (m +:+ "_Diff") = diff_value cognos_agg pbi_agg m key.
Proof.
  intros Hm. unfold report_row. rewrite !cell_filter.
  rewrite !decide_True
    by (apply elem_of_column_order; right; right; right; exists m; auto).
  set (r := <["presence" := _]> _).
  assert (cell r "unique_key" = key) as Hr.
  { unfold r. rewrite cell_insert_ne by done. apply report_row_after_dims. }
  rewrite <- Hr. by apply cell_foldl_measure_row.
Qed.

Lemma report_row_dim (d : string) :
  d ∈ dims -> d <> "presence" ->
  (forall m, m ∈ ms ->
     d <> m +:+ "_Cognos" /\ d <> m +:+ "_PBI" /\ d <> m +:+ "_Diff") ->
  cell R d = dim_value cognos_agg pbi_agg d key.
Proof.
  intros Hd Hp Hm. unfold report_row. rewrite cell_filter.
  rewrite decide_True by (apply elem_of_column_order; auto).
  rewrite cell_foldl_measure_row_other by done.
  rewrite cell_insert_ne by done.
  rewrite (foldl_fill_dimension_row_insert dims _ key Hkey).
  - by rewrite cell_foldl_insert, decide_True.
  - unfold cell. by rewrite lookup_singleton_eq.
Qed.

End Row.

End ReportCells.

(** ** The call as a whole: when it returns, and what *)

Section Pipeline.

Lemma elem_of_all_measures (cognos_df pbi_df : DataFrame) (dims : list string)
    (m : string) :
  m ∈ all_measures_of cognos_df pbi_df dims
  <-> (m ∈ columns cognos_df /\ m ∈ columns pbi_df) /\ (m ∉ dims)
      /\ dtype_of cognos_df m = DNumber /\ dtype_of pbi_df m = DNumber.
Proof.
  unfold all_measures_of, measures_of.
  rewrite elem_of_elements, elem_of_intersection, !elem_of_list_to_set.
  rewrite !list_elem_of_filter, !is_number_true. tauto.
Qed.

Lemma NoDup_all_measures (cognos_df pbi_df : DataFrame) (dims : list string) :
  NoDup (all_measures_of cognos_df pbi_df dims).
Proof. apply NoDup_elements. Qed.

(** The label [unique_key] has [_key] in it: a column of that name that
    both datasets have is always a dimension, never a measure. *)
Lemma unique_key_not_measure (cognos_df pbi_df : DataFrame) :
  let dims := (select_dims cognos_df pbi_df).1 in
  "unique_key" ∉ all_measures_of (fillna_cols cognos_df dims (VStr "NAN"))
                                 (fillna_cols pbi_df dims (VStr "NAN")) dims.
Proof.
  intros dims [[Hc Hp] [Hd _]]%elem_of_all_measures. simpl in Hc, Hp.
  apply Hd. apply select_dims_key; [|done].
  apply list_elem_of_filter. by split.
Qed.

Lemma aggregate_trows (df : DataFrame) (dims ms : list string) :
  trows (aggregate df dims ms)
  = (fun r => <["unique_key" := unique_key dims r]> r)
    <$> trows (groupby_sum df dims ms).
Proof. unfold aggregate, with_unique_key. apply setitem_trows. Qed.

Lemma lookup_group_row (dims : list string) (k : list value)
    (g : string -> value) (ms : list string) (m : string) :
  m ∉ dims -> m ∈ ms ->
  (list_to_map (zip dims k ++ ((fun m' => (m', g m')) <$> ms)) : row) !! m
  = Some (g m).
Proof.
  intros Hd Hm. revert k. induction dims as [|d dims IHd]; intros k.
  - simpl. clear Hd. induction ms as [|m0 ms IH]; [by apply elem_of_nil in Hm|].
    csimpl. destruct (decide (m0 = m)) as [->|Hne].
    + by rewrite lookup_insert_eq.
    + rewrite lookup_insert_ne by done. apply IH.
      apply elem_of_cons in Hm as [?|?]; [congruence|done].
  - apply not_elem_of_cons in Hd as [Hne Hd].
    destruct k as [|v k]; csimpl.
    + specialize (IHd Hd []). by destruct dims.
    + rewrite lookup_insert_ne by done. by apply IHd.
Qed.

Lemma aggregate_numeric (df : DataFrame) (dims ms : list string) (m : string) :
  m ∈ ms -> m ∉ dims -> m <> "unique_key" ->
  numeric_col (aggregate df dims ms) m.
Proof.
  intros Hm Hd Hk r Hr s.
  rewrite aggregate_trows in Hr.
  apply list_elem_of_fmap in Hr as (r0 & -> & Hr0).
  unfold groupby_sum in Hr0. cbn [trows] in Hr0.
  apply list_elem_of_fmap in Hr0 as (k & -> & _).
  rewrite cell_insert_ne by done. unfold cell.
  by rewrite (lookup_group_row dims k
                (fun m' => VNum (group_sum (rows df) dims k m')) ms m Hd Hm).
Qed.

(** A call on two datasets that share a column returns, and returns this. *)
Lemma generate_validation_report_Ok (cognos_df pbi_df : DataFrame) :
  let dims := (select_dims cognos_df pbi_df).1 in
  let cognos_df' := fillna_cols cognos_df dims (VStr "NAN") in
  let pbi_df' := fillna_cols pbi_df dims (VStr "NAN") in
  let all_measures := all_measures_of cognos_df' pbi_df' dims in
  let cognos_agg := aggregate cognos_df' dims all_measures in
  let pbi_agg := aggregate pbi_df' dims all_measures in
  dims <> [] ->
  returned (generate_validation_report cognos_df pbi_df)
  = Ok ({| tcols := column_order dims all_measures;
           trows := report_row cognos_agg pbi_agg dims all_measures
                    <$> unified_keys cognos_agg pbi_agg |},
        cognos_agg, pbi_agg, dims).
Proof.
  intros dims cognos_df' pbi_df' all_measures cognos_agg pbi_agg Hdims.
  rewrite (generate_validation_report_run _ _ Hdims). cbn [returned].
  fold dims cognos_df' pbi_df'. fold all_measures. fold cognos_agg pbi_agg.
  rewrite reconcile_rows; [done|].
  intros m Hm.
  assert (m <> "unique_key") as Hk.
  { intros ->. by apply (unique_key_not_measure cognos_df pbi_df). }
  apply elem_of_all_measures in Hm as Hm'. destruct Hm' as (_ & Hd & _).
  split; by apply aggregate_numeric.
Qed.

(** What a returned report is. *)
Lemma generate_validation_report_report
    (cognos_df pbi_df : DataFrame) (vr ca pa : Table) (dims : list string) :
  returned (generate_validation_report cognos_df pbi_df) = Ok (vr, ca, pa, dims) ->
  let o := generate_validation_report cognos_df pbi_df in
  let all_measures :=
    all_measures_of (cognos_df_after o) (pbi_df_after o) dims in
  vr = {| tcols := column_order dims all_measures;
          trows := report_row ca pa dims all_measures <$> unified_keys ca pa |}.
Proof.
  intros H o all_measures.
  destruct (generate_validation_report_returned _ _ _ _ _ _ H)
    as (Hd & Hne & Hc & Hp & Hca & Hpa & _).
  fold o in Hc, Hp, Hca, Hpa. fold all_measures in Hca, Hpa.
  subst dims. pose proof (generate_validation_report_Ok _ _ Hne) as HOk.
  cbv zeta in HOk. rewrite H in HOk.
  injection HOk as Hvr _ _. rewrite Hvr.
  unfold all_measures. rewrite Hca, Hpa. unfold all_measures.
  by rewrite Hc, Hp.
Qed.

End Pipeline.

(** ** Claims on the Dimension Selector's failure and on an empty Measure Set *)

Section Failure.


Lemma fillna_cols_dtype_of (df : DataFrame) (dims : list string) (v : value)
    (col : string) :
  col ∉ dims -> dtype_of (fillna_cols df dims v) col = dtype_of df col.
Proof. intros H. unfold dtype_of. by rewrite fillna_cols_dtypes. Qed.




End Failure.

(** ** Key Unifier and Reconciler: the rows of a returned report *)

Section ReportRows.

Lemma elem_of_unified_keys (ca pa : Table) (key : value) :
  key ∈ unified_keys ca pa
  <-> key ∈ getitem ca "unique_key" \/ key ∈ getitem pa "unique_key".
Proof.
  unfold unified_keys.
  by rewrite elem_of_elements, elem_of_union, !elem_of_list_to_set.
Qed.

Lemma NoDup_unified_keys (ca pa : Table) : NoDup (unified_keys ca pa).
Proof. apply NoDup_elements. Qed.






End ReportRows.

(** ** Summary Builder *)

Section Summary.



Lemma filter_none {A : Type} (P : A -> Prop) `{forall x, Decision (P x)}
    (l : list A) :
  (forall x, x ∈ l -> ~ P x) -> filter P l = [].
Proof.
  induction l as [|x l IH]; intros Hl; [done|].
  rewrite filter_cons_False by (apply Hl, list_elem_of_here).
  apply IH. intros y Hy. apply Hl. by apply list_elem_of_further.
Qed.


Lemma count_presence (dims ms : list string) :
  "presence" ∉ dims ->
  count_occ string_dec (column_order dims ms) "presence" = 1%nat.
Proof.
  intros Hp. unfold column_order. rewrite !count_occ_app.
  rewrite (proj1 (count_occ_not_In string_dec dims "presence"))
    by (by rewrite <- list_elem_of_In).
  rewrite (proj1 (count_occ_not_In string_dec (concat _) "presence")).
  - done.
  - rewrite <- list_elem_of_In.
    induction ms as [|m ms IH]; csimpl; [apply not_elem_of_nil|].
    rewrite !not_elem_of_cons. repeat split; try done;
      intros E; symmetry in E; revert E; apply label_not_key; auto.
Qed.

Lemma forallb_presence (rs : list row) (x : value) :
  forallb (fun v => bool_decide (v = x)) ((fun r => cell r "presence") <$> rs)
  = bool_decide (Forall (fun r => cell r "presence" = x) rs).
Proof.
  induction rs as [|r rs IH].
  - by rewrite bool_decide_eq_true_2 by constructor.
  - rewrite fmap_cons. cbn [forallb]. rewrite IH. destruct (decide (cell r "presence" = x)) as [E|E].
    + rewrite (bool_decide_eq_true_2 _ E). simpl.
      apply bool_decide_ext. split; [by constructor|by inversion 1].
    + rewrite (bool_decide_eq_false_2 _ E). simpl. symmetry.
      apply bool_decide_eq_false. by inversion 1.
Qed.




End Summary.

(** ** Keys that collide within one aggregate *)

Section Collisions.

Lemma foldl_ext_all {A B : Type} (f g : A -> B -> A) (l : list B) (a : A) :
  (forall a' b, f a' b = g a' b) -> foldl f a l = foldl g a l.
Proof.
  intros H. revert a. induction l as [|b l IH]; intros a; simpl; [done|].
  by rewrite H, IH.
Qed.

Lemma foldlM_ext_all {A B : Type} (f g : A -> B -> result A) (l : list B) (a : A) :
  (forall a' b, f a' b = g a' b) -> foldlM f a l = foldlM g a l.
Proof.
  intros H. revert a. induction l as [|b l IH]; intros a; simpl; [done|].
  rewrite H. destruct (g a b); simpl; [apply IH|done].
Qed.

(** The Reconciler reads an aggregate through its key column and through
    the dictionaries from its keys to its columns, and through nothing
    else. *)
Lemma reconcile_ext (ca ca' pa pa' : Table) (dims ms : list string) :
  getitem ca "unique_key" = getitem ca' "unique_key" ->
  (forall col, dict_zip (getitem ca "unique_key") (getitem ca col)
               = dict_zip (getitem ca' "unique_key") (getitem ca' col)) ->
  getitem pa "unique_key" = getitem pa' "unique_key" ->
  (forall col, dict_zip (getitem pa "unique_key") (getitem pa col)
               = dict_zip (getitem pa' "unique_key") (getitem pa' col)) ->
  reconcile ca pa dims ms = reconcile ca' pa' dims ms.
Proof.
  intros Hck Hcd Hpk Hpd. unfold reconcile, unified_keys.
  rewrite Hck, Hpk.
  assert (forall t d, fill_dimension ca pa t d = fill_dimension ca' pa' t d)
    as Hfill.
  { intros t d. unfold fill_dimension. by rewrite Hcd, Hpd. }
  assert (forall t m, add_measure ca pa t m = add_measure ca' pa' t m)
    as Hadd.
  { intros t m. unfold add_measure. by rewrite Hcd, Hpd. }
  assert (forall key, presence_of ca pa key = presence_of ca' pa' key)
    as Hpres.
  { intros key. unfold presence_of. by rewrite Hck, Hpk. }
  rewrite (foldl_ext_all _ _ dims _ Hfill).
  rewrite (foldlM_ext_all _ _ ms _ Hadd).
  set (t := foldl _ _ dims).
  by rewrite (list_fmap_ext _ _ (getitem t "unique_key")
                (fun _ key _ => Hpres key)).
Qed.

Lemma agg_row_last (agg : Table) (l1 l3 : list row) (r1 : row) (key : value) :
  trows agg = l1 ++ r1 :: l3 ->
  cell r1 "unique_key" = key ->
  (forall r, r ∈ l3 -> cell r "unique_key" <> key) ->
  agg_row agg key = Some r1.
Proof.
  intros Hrows Hr1 Hl3. unfold agg_row.
  rewrite Hrows, filter_app, filter_cons_True by done.
  rewrite (filter_none _ l3) by done. apply last_snoc.
Qed.

(** A row that a later row of the same key follows is in none of the
    dictionaries: any row of that key could stand in its place. *)
Lemma shadowed_row (agg agg' : Table) (l1 l2 : list row) (r0 r0' : row) :
  trows agg = l1 ++ r0 :: l2 ->
  trows agg' = l1 ++ r0' :: l2 ->
  cell r0' "unique_key" = cell r0 "unique_key" ->
  (exists r, r ∈ l2 /\ cell r "unique_key" = cell r0 "unique_key") ->
  getitem agg "unique_key" = getitem agg' "unique_key"
  /\ forall col, dict_zip (getitem agg "unique_key") (getitem agg col)
                 = dict_zip (getitem agg' "unique_key") (getitem agg' col).
Proof.
  intros H H' Hk (r & Hr & Hrk). split.
  - unfold getitem. rewrite H, H', !fmap_app, !fmap_cons. by rewrite Hk.
  - intros col. apply map_eq. intros key. unfold getitem.
    rewrite !dict_zip_last, H, H', !filter_app.
    destruct (decide (cell r0 "unique_key" = key)) as [E|E].
    + rewrite !filter_cons_True by congruence.
      assert (r ∈ filter (fun x => cell x "unique_key" = key) l2) as Hin
        by (apply list_elem_of_filter; split; congruence).
      destruct (filter (fun x => cell x "unique_key" = key) l2)
        as [|x l] eqn:El2; [by apply elem_of_nil in Hin|].
      by rewrite !last_app, !last_cons_cons.
    + by rewrite !filter_cons_False by congruence.
Qed.

Lemma filter_report_rows (ca pa : Table) (dims ms : list string)
    (keys : list value) (key : value) :
  "unique_key" ∉ dims -> NoDup keys -> key ∈ keys ->
  filter (fun r => cell r "unique_key" = key) (report_row ca pa dims ms <$> keys)
  = [report_row ca pa dims ms key].
Proof.
  intros Hkey Hnd Hin.
  induction Hnd as [|k keys Hk Hnd IH]; [by apply elem_of_nil in Hin|].
  rewrite fmap_cons. apply elem_of_cons in Hin as [->|Hin].
  - rewrite filter_cons_True by (by apply report_row_key).
    f_equal. apply filter_none.
    intros r (k' & -> & Hk')%list_elem_of_fmap.
    rewrite report_row_key by done. congruence.
  - rewrite filter_cons_False; [by apply IH|].
    rewrite report_row_key by done. congruence.
Qed.

Lemma lookup_zip_elem (dims : list string) (k : list value)
    (rest : list (string * value)) (d : string) :
  d ∈ dims -> length dims = length k ->
  exists v, (list_to_map (zip dims k ++ rest) : row) !! d = Some v /\ v ∈ k.
Proof.
  revert k. induction dims as [|d0 dims IH]; intros k Hd Hlen;
    [by apply elem_of_nil in Hd|].
  destruct k as [|v0 k]; [done|]. csimpl.
  destruct (decide (d0 = d)) as [->|Hne].
  - exists v0. rewrite lookup_insert_eq. split; [done|apply list_elem_of_here].
  - apply elem_of_cons in Hd as [?|Hd]; [congruence|].
    destruct (IH k Hd) as (v & Hv & Hin); [by injection Hlen|].
    exists v. rewrite lookup_insert_ne by done.
    split; [done|by apply list_elem_of_further].
Qed.

(** A dimension cell of an aggregate is never missing. *)
Lemma aggregate_dim_not_nan (df : DataFrame) (dims ms : list string) (r : row)
    (d : string) :
  r ∈ trows (aggregate df dims ms) -> d ∈ dims -> d <> "unique_key" ->
  cell r d <> VNaN.
Proof.
  intros Hr Hd Hk.
  rewrite aggregate_trows in Hr.
  apply list_elem_of_fmap in Hr as (r0 & -> & Hr0).
  unfold groupby_sum in Hr0. cbn [trows] in Hr0.
  apply list_elem_of_fmap in Hr0 as (k & -> & Hkeys).
  apply elem_of_group_keys in Hkeys as (Hnan & row0 & _ & <-).
  rewrite cell_insert_ne by done. unfold cell.
  destruct (lookup_zip_elem dims (group_key dims row0)
              ((fun m => (m, VNum (group_sum (rows df) dims
                                     (group_key dims row0) m))) <$> ms) d Hd)
    as (v & -> & Hv).
  - unfold group_key. by rewrite length_fmap.
  - simpl. intros ->. done.
Qed.

End Collisions.

Section CollisionClaim.

Variables (cognos_df pbi_df : DataFrame) (vr ca pa : Table) (dims : list string).
Hypothesis Hret :
  returned (generate_validation_report cognos_df pbi_df) = Ok (vr, ca, pa, dims).
Hypothesis Hkey : "unique_key" ∉ dims.

#[local] Abbreviation o := (generate_validation_report cognos_df pbi_df).
#[local] Abbreviation ms :=
  (all_measures_of (cognos_df_after o) (pbi_df_after o) dims).

Lemma returned_rows :
  trows vr = report_row ca pa dims ms <$> unified_keys ca pa.
Proof. by rewrite (generate_validation_report_report _ _ _ _ _ _ Hret). Qed.

Lemma returned_reconcile : reconcile ca pa dims ms = Ok vr.
Proof. by destruct (generate_validation_report_returned _ _ _ _ _ _ Hret)
         as (_ & _ & _ & _ & _ & _ & ?). Qed.

Lemma returned_dim_not_nan (agg : Table) (r : row) (d : string) :
  agg = ca \/ agg = pa -> r ∈ trows agg -> d ∈ dims -> cell r d <> VNaN.
Proof.
  destruct (generate_validation_report_returned _ _ _ _ _ _ Hret)
    as (_ & _ & _ & _ & Hca & Hpa & _).
  intros [-> | ->] Hr Hd.
  - rewrite Hca in Hr. eapply aggregate_dim_not_nan; eauto. congruence.
  - rewrite Hpa in Hr. eapply aggregate_dim_not_nan; eauto. congruence.
Qed.

Lemma single_row (key : value) :
  key ∈ unified_keys ca pa ->
  filter (fun r => cell r "unique_key" = key) (trows vr)
  = [report_row ca pa dims ms key].
Proof.
  intros Hin. rewrite returned_rows.
  apply filter_report_rows; auto using NoDup_unified_keys.
Qed.

Lemma colliding_key (agg : Table) (l1 l3 : list row) (r1 : row) (key : value) :
  trows agg = l1 ++ r1 :: l3 -> cell r1 "unique_key" = key ->
  key ∈ getitem agg "unique_key".
Proof.
  intros Hrows <-. unfold getitem. apply list_elem_of_fmap.
  exists r1. split; [done|]. rewrite Hrows.
  apply elem_of_app. right. apply list_elem_of_here.
Qed.

Lemma source_collision (l1 l2 l3 : list row) (r0 r1 : row) (key : value) :
  trows ca = l1 ++ r0 :: l2 ++ r1 :: l3 ->
  cell r0 "unique_key" = key -> cell r1 "unique_key" = key ->
  (forall r, r ∈ l3 -> cell r "unique_key" <> key) ->
  exists r,
    filter (fun r' => cell r' "unique_key" = key) (trows vr) = [r]
    /\ (forall m, m ∈ ms -> cell r (m +:+ "_Cognos") = cell r1 m)
    /\ (forall d, d ∈ dims -> ~ generated_label ms d -> cell r d = cell r1 d)
    /\ (forall r0', cell r0' "unique_key" = key ->
          reconcile {| tcols := tcols ca;
                       trows := l1 ++ r0' :: l2 ++ r1 :: l3 |} pa dims ms
          = Ok vr).
Proof.
  intros Hrows Hr0 Hr1 Hl3.
  assert (trows ca = (l1 ++ r0 :: l2) ++ r1 :: l3) as Hrows'
    by (by rewrite <- app_assoc).
  pose proof (agg_row_last ca _ _ _ key Hrows' Hr1 Hl3) as Hlast.
  assert (key ∈ unified_keys ca pa) as Hin.
  { apply elem_of_unified_keys. left. by eapply colliding_key. }
  exists (report_row ca pa dims ms key).
  split; [by apply single_row|]. split; [|split].
  - intros m Hm.
    destruct (report_row_measure ca pa dims ms key Hkey m Hm) as (-> & _ & _).
    unfold agg_value. by rewrite Hlast.
  - intros d Hd Hgen. rewrite report_row_dim; auto.
    + unfold dim_value, agg_value. rewrite Hlast. simpl.
      destruct (cell r1 d) eqn:E; try done.
      destruct (returned_dim_not_nan ca r1 d); auto.
      rewrite Hrows'. apply elem_of_app. right. apply list_elem_of_here.
    + intros ->. apply Hgen. by left.
    + intros m Hm. repeat split; intros ->; apply Hgen; right; exists m; auto.
  - intros r0' Hr0'. rewrite <- returned_reconcile.
    destruct (shadowed_row ca
                {| tcols := tcols ca; trows := l1 ++ r0' :: l2 ++ r1 :: l3 |}
                l1 (l2 ++ r1 :: l3) r0 r0' Hrows eq_refl) as [Hk Hd].
    + congruence.
    + exists r1. split; [|congruence].
      apply elem_of_app. right. apply list_elem_of_here.
    + symmetry. by apply reconcile_ext.
Qed.

Lemma target_collision (l1 l2 l3 : list row) (r0 r1 : row) (key : value) :
  trows pa = l1 ++ r0 :: l2 ++ r1 :: l3 ->
  cell r0 "unique_key" = key -> cell r1 "unique_key" = key ->
  (forall r, r ∈ l3 -> cell r "unique_key" <> key) ->
  exists r,
    filter (fun r' => cell r' "unique_key" = key) (trows vr) = [r]
    /\ (forall m, m ∈ ms -> cell r (m +:+ "_PBI") = cell r1 m)
    /\ (forall d, d ∈ dims -> ~ generated_label ms d ->
          (key ∉ getitem ca "unique_key" -> cell r d = cell r1 d)
          /\ (forall rs, agg_row ca key = Some rs -> cell r d = cell rs d))
    /\ (forall r0', cell r0' "unique_key" = key ->
          reconcile ca {| tcols := tcols pa;
                          trows := l1 ++ r0' :: l2 ++ r1 :: l3 |} dims ms
          = Ok vr).
Proof.
  intros Hrows Hr0 Hr1 Hl3.
  assert (trows pa = (l1 ++ r0 :: l2) ++ r1 :: l3) as Hrows'
    by (by rewrite <- app_assoc).
  pose proof (agg_row_last pa _ _ _ key Hrows' Hr1 Hl3) as Hlast.
  assert (key ∈ unified_keys ca pa) as Hin.
  { apply elem_of_unified_keys. right. by eapply colliding_key. }
  exists (report_row ca pa dims ms key).
  split; [by apply single_row|]. split; [|split].
  - intros m Hm.
    destruct (report_row_measure ca pa dims ms key Hkey m Hm) as (_ & -> & _).
    unfold agg_value. by rewrite Hlast.
  - intros d Hd Hgen.
    assert (cell (report_row ca pa dims ms key) d = dim_value ca pa d key)
      as ->.
    { apply report_row_dim; auto.
      - intros ->. apply Hgen. by left.
      - intros m Hm. repeat split; intros ->; apply Hgen; right; exists m; auto. }
    unfold dim_value. split.
    + intros Habs. rewrite (agg_value_absent ca d key Habs). simpl.
      unfold agg_value. by rewrite Hlast.
    + intros rs Hrs. unfold agg_value at 1 3. rewrite Hrs. simpl.
      destruct (cell rs d) eqn:E; try done.
      destruct (returned_dim_not_nan ca rs d); auto.
      by apply agg_row_elem in Hrs as [? _].
  - intros r0' Hr0'. rewrite <- returned_reconcile.
    destruct (shadowed_row pa
                {| tcols := tcols pa; trows := l1 ++ r0' :: l2 ++ r1 :: l3 |}
                l1 (l2 ++ r1 :: l3) r0 r0' Hrows eq_refl) as [Hk Hd].
    + congruence.
    + exists r1. split; [|congruence].
      apply elem_of_app. right. apply list_elem_of_here.
    + symmetry. by apply reconcile_ext.
Qed.

End CollisionClaim.

(** C10, as the code has it. No dimension is itself labelled [unique_key].
    Let two rows of one aggregate carry the same key, the second of them
    the last row of that aggregate with the key. The report then has one
    row for the key. Its cell for that aggregate under each measure is the
    cell of the last row. Under a dimension whose label the report does not
    write itself, it shows the cell of the source's last row with the key
    whenever the source has the key, and the cell of the target's last row
    only when the source has not the key. The earlier row is not read at
    all: with any other row of that key in its place the Reconciler returns
    the same report, and so the same summary. *)
Theorem collision_last_row_wins
    (cognos_df pbi_df : DataFrame) (vr ca pa : Table) (dims : list string) :
  returned (generate_validation_report cognos_df pbi_df) = Ok (vr, ca, pa, dims) ->
  "unique_key" ∉ dims ->
  let o := generate_validation_report cognos_df pbi_df in
  let ms := all_measures_of (cognos_df_after o) (pbi_df_after o) dims in
  forall (l1 l2 l3 : list row) (r0 r1 : row) (key : value),
    cell r0 "unique_key" = key -> cell r1 "unique_key" = key ->
    (forall r, r ∈ l3 -> cell r "unique_key" <> key) ->
    (trows ca = l1 ++ r0 :: l2 ++ r1 :: l3 ->
     exists r,
       filter (fun r' => cell r' "unique_key" = key) (trows vr) = [r]
       /\ (forall m, m ∈ ms -> cell r (m +:+ "_Cognos") = cell r1 m)
       /\ (forall d, d ∈ dims -> ~ generated_label ms d -> cell r d = cell r1 d)
       /\ (forall r0', cell r0' "unique_key" = key ->
             reconcile {| tcols := tcols ca;
                          trows := l1 ++ r0' :: l2 ++ r1 :: l3 |} pa dims ms
             = Ok vr))
    /\ (trows pa = l1 ++ r0 :: l2 ++ r1 :: l3 ->
        exists r,
          filter (fun r' => cell r' "unique_key" = key) (trows vr) = [r]
          /\ (forall m, m ∈ ms -> cell r (m +:+ "_PBI") = cell r1 m)
          /\ (forall d, d ∈ dims -> ~ generated_label ms d ->
                (key ∉ getitem ca "unique_key" -> cell r d = cell r1 d)
                /\ (forall rs, agg_row ca key = Some rs -> cell r d = cell rs d))
          /\ (forall r0', cell r0' "unique_key" = key ->
                reconcile ca {| tcols := tcols pa;
                                trows := l1 ++ r0' :: l2 ++ r1 :: l3 |} dims ms
                = Ok vr)).
Proof.
  intros Hret Hkey o ms l1 l2 l3 r0 r1 key Hr0 Hr1 Hl3. split; intros Hrows.
  - by apply (source_collision cognos_df pbi_df vr ca pa dims Hret Hkey
                l1 l2 l3 r0 r1 key).
  - by apply (target_collision cognos_df pbi_df vr ca pa dims Hret Hkey
                l1 l2 l3 r0 r1 key).
Qed.

(** ** The claims on the example datasets *)

Section Examples.

(** A closed goal settled by evaluation: an equation between values, or a
    decidable proposition. *)
Ltac evaluated :=
  first [ vm_compute; reflexivity
        | apply (bool_decide_unpack _); vm_compute; exact I ].

Lemma ex_run_returned :
  returned ex_run
  = Ok (report_of ex_run, cognos_agg_of ex_run, pbi_agg_of ex_run, dims_of ex_run).
Proof. vm_compute. reflexivity. Qed.

(** The report of the example of the specification: keys, presence and
    differences as the specification lists them, and its summary. *)
Example ex_run_report :
  (fun r => [cell r "unique_key"; cell r "presence"; cell r "Sales_Diff"])
  <$> trows (report_of ex_run)
  = [[VStr "WEST"; VStr "Present in Cognos"; VNum (-50)];
     [VStr "EAST"; VStr "Present in Both"; VNum (-10)];
     [VStr "NORTH"; VStr "Present in PBI"; VNum 20]].
Proof. vm_compute. reflexivity. Qed.

Example ex_run_summary :
  generate_diff_checker (report_of ex_run)
  = Ok {| tcols := ["Diff Column Name"; "Sum of Difference"];
          trows := [summary_row "Sales_Diff" (VNum (-40));
                    summary_row "All rows present in both" (VStr "No")] |}.
Proof. vm_compute. reflexivity. Qed.







(** Witness of C10: in the aggregate of [mixed_cognos] the rows of [EAST]
    and [East] carry the key [EAST], and the row of [East] is the later. *)
Lemma collision_last_row_wins_witness :
  returned mixed_run
  = Ok (report_of mixed_run, cognos_agg_of mixed_run, pbi_agg_of mixed_run,
        dims_of mixed_run)
  /\ ("unique_key" ∉ dims_of mixed_run)
  /\ trows (cognos_agg_of mixed_run)
     = [] ++ row_at (cognos_agg_of mixed_run) 0
          :: [] ++ row_at (cognos_agg_of mixed_run) 1
          :: [row_at (cognos_agg_of mixed_run) 2]
  /\ exists r,
       filter (fun r' => cell r' "unique_key" = VStr "EAST")
              (trows (report_of mixed_run)) = [r]
       /\ (forall m, m ∈ measures_after mixed_run ->
             cell r (m +:+ "_Cognos")
             = cell (row_at (cognos_agg_of mixed_run) 1) m)
       /\ (forall d, d ∈ dims_of mixed_run ->
             ~ generated_label (measures_after mixed_run) d ->
             cell r d = cell (row_at (cognos_agg_of mixed_run) 1) d)
       /\ (forall r0', cell r0' "unique_key" = VStr "EAST" ->
             reconcile
               {| tcols := tcols (cognos_agg_of mixed_run);
                  trows := [] ++ r0'
                           :: [] ++ row_at (cognos_agg_of mixed_run) 1
                           :: [row_at (cognos_agg_of mixed_run) 2] |}
               (pbi_agg_of mixed_run) (dims_of mixed_run)
               (measures_after mixed_run)
             = Ok (report_of mixed_run)).
Proof.
  assert (returned mixed_run
          = Ok (report_of mixed_run, cognos_agg_of mixed_run,
                pbi_agg_of mixed_run, dims_of mixed_run)) as H by evaluated.
  assert ("unique_key" ∉ dims_of mixed_run) as Hk by evaluated.
  assert (trows (cognos_agg_of mixed_run)
          = [] ++ row_at (cognos_agg_of mixed_run) 0
               :: [] ++ row_at (cognos_agg_of mixed_run) 1
               :: [row_at (cognos_agg_of mixed_run) 2]) as Hrows by evaluated.
  refine (conj H (conj Hk (conj Hrows _))).
  refine (proj1 (collision_last_row_wins mixed_cognos ex_pbi _ _ _ _ H Hk
                   [] [] [row_at (cognos_agg_of mixed_run) 2]
                   (row_at (cognos_agg_of mixed_run) 0)
                   (row_at (cognos_agg_of mixed_run) 1)
                   (VStr "EAST") _ _ _) Hrows).
  - evaluated.
  - evaluated.
  - intros r Hr. apply list_elem_of_singleton in Hr as ->.
    vm_compute. discriminate.
Defined.




(** Counterexample to C10 as stated. The target's aggregate has the rows of
    [East] and [east], both of key [EAST], and the source has that key too.
    The row of the report takes the target's measure from the later row,
    [east], but its region is the source's [EAST], not [east]. *)
Lemma target_collision_shows_source_dimension :
  returned cased_run
  = Ok (report_of cased_run, cognos_agg_of cased_run, pbi_agg_of cased_run,
        dims_of cased_run)
  /\ dims_of cased_run = ["Region"]
  /\ (fun r => [cell r "Region"; cell r "Sales"; cell r "unique_key"])
     <$> trows (pbi_agg_of cased_run)
     = [[VStr "East"; VNum 90; VStr "EAST"]; [VStr "east"; VNum 5; VStr "EAST"]]
  /\ (fun r => [cell r "unique_key"; cell r "Region"; cell r "Sales_PBI"])
     <$> trows (report_of cased_run)
     = [[VStr "EAST"; VStr "EAST"; VNum 5]]
  /\ ~ (forall r, r ∈ trows (report_of cased_run) ->
          cell r "Region" = cell (row_at (pbi_agg_of cased_run) 1) "Region").
Proof.
  split; [evaluated|]. split; [evaluated|]. split; [evaluated|].
  split; [evaluated|].
  intros Hall. specialize (Hall (row_at (report_of cased_run) 0)).
  assert (row_at (report_of cased_run) 0 ∈ trows (report_of cased_run))
    as Hin by evaluated.
  specialize (Hall Hin). vm_compute in Hall. discriminate Hall.
Qed.

End Examples.

(** * Further properties of the program

    What the code shows beyond the statements above: the Column Checklist,
    the normalizer on every cell, what a call keeps and conserves, and the
    run of [main] on a workbook. *)

(** ** Column Checklist *)

Section ColumnChecklist.

Lemma lookup_padded (l : list string) (k i : nat) :
  (l ++ replicate k "") !! i
  = if decide (i < length l + k)%nat then Some (default "" (l !! i)) else None.
Proof.
  destruct (decide (i < length l)%nat) as [Hi|Hi].
  - rewrite lookup_app_l by done.
    destruct (lookup_lt_is_Some_2 l i Hi) as [x ->].
    by rewrite decide_True by lia.
  - rewrite lookup_app_r by lia.
    rewrite (lookup_ge_None_2 l i) by lia. simpl.
    destruct (decide (i < length l + k)%nat) as [Hk|Hk].
    + apply lookup_replicate_2. lia.
    + apply lookup_ge_None_2. rewrite length_replicate. lia.
Qed.

Lemma column_checklist_lookup_aux (cognos_df pbi_df : DataFrame) (i : nat) :
  column_checklist cognos_df pbi_df !! i
  = if decide (i < Nat.max (length (columns cognos_df))
                           (length (columns pbi_df)))%nat
    then Some {| Cognos_Columns := label_at cognos_df i;
                 PowerBI_Columns := label_at pbi_df i;
                 Match := bool_decide (label_at cognos_df i = label_at pbi_df i) |}
    else None.
Proof.
  unfold column_checklist, label_at.
  rewrite lookup_zip_with, !lookup_padded.
  set (a := length (columns cognos_df)). set (b := length (columns pbi_df)).
  replace (a + (Nat.max b a - a))%nat with (Nat.max a b) by lia.
  replace (b + (Nat.max b a - b))%nat with (Nat.max a b) by lia.
  by destruct (decide (i < Nat.max a b)%nat).
Qed.

Lemma length_column_checklist (cognos_df pbi_df : DataFrame) :
  length (column_checklist cognos_df pbi_df)
  = Nat.max (length (columns cognos_df)) (length (columns pbi_df)).
Proof.
  unfold column_checklist.
  rewrite length_zip_with, !length_app, !length_replicate. lia.
Qed.

(** X1. The checklist has as many rows as the longer of the two lists of
    labels, and its row at a position holds the label each dataset has at
    that position, an empty string where a dataset has none, and whether
    the two are equal. *)
Theorem column_checklist_rows (cognos_df pbi_df : DataFrame) :
  length (column_checklist cognos_df pbi_df)
  = Nat.max (length (columns cognos_df)) (length (columns pbi_df))
  /\ forall i,
       (i < Nat.max (length (columns cognos_df)) (length (columns pbi_df)))%nat ->
       column_checklist cognos_df pbi_df !! i
       = Some {| Cognos_Columns := label_at cognos_df i;
                 PowerBI_Columns := label_at pbi_df i;
                 Match := bool_decide (label_at cognos_df i = label_at pbi_df i) |}.
Proof.
  split; [apply length_column_checklist|].
  intros i Hi. rewrite column_checklist_lookup_aux. by rewrite decide_True.
Qed.

Lemma label_at_inside (df : DataFrame) (i : nat) :
  "" ∉ columns df -> (i < length (columns df))%nat -> label_at df i <> "".
Proof.
  intros Hne Hi. unfold label_at.
  destruct (lookup_lt_is_Some_2 _ _ Hi) as [x Hx]. rewrite Hx. simpl.
  intros ->. apply Hne. by eapply list_elem_of_lookup_2.
Qed.

Lemma label_at_outside (df : DataFrame) (i : nat) :
  (length (columns df) <= i)%nat -> label_at df i = "".
Proof. intros Hi. unfold label_at. by rewrite lookup_ge_None_2. Qed.

(** X2. When no column is labelled with the empty string, every row of
    the checklist matches exactly when the two datasets have the same
    labels in the same order; and a row past the end of the shorter list
    never matches, so that a column one dataset has in excess is always
    flagged. *)
Theorem column_checklist_all_match (cognos_df pbi_df : DataFrame) :
  "" ∉ columns cognos_df -> "" ∉ columns pbi_df ->
  (Forall (fun r => Match r = true) (column_checklist cognos_df pbi_df)
   <-> columns cognos_df = columns pbi_df)
  /\ (forall i r,
        column_checklist cognos_df pbi_df !! i = Some r ->
        (Nat.min (length (columns cognos_df)) (length (columns pbi_df)) <= i)%nat ->
        Match r = false).
Proof.
  intros Hc Hp.
  assert (forall i r,
            column_checklist cognos_df pbi_df !! i = Some r ->
            (Nat.min (length (columns cognos_df)) (length (columns pbi_df)) <= i)%nat ->
            Match r = false) as Hout.
  { intros i r Hr Hi. rewrite column_checklist_lookup_aux in Hr.
    destruct (decide _) as [Hlt|]; [|done]. injection Hr as <-. simpl.
    apply bool_decide_eq_false. intros Heq.
    destruct (decide (i < length (columns cognos_df))%nat) as [Hic|Hic].
    - apply (label_at_inside cognos_df i Hc Hic).
      rewrite Heq. apply label_at_outside. lia.
    - apply (label_at_inside pbi_df i Hp); [lia|].
      rewrite <- Heq. apply label_at_outside. lia. }
  split; [|exact Hout]. split.
  - intros Hall. rewrite Forall_lookup in Hall.
    assert (length (columns cognos_df) = length (columns pbi_df)) as Hlen.
    { destruct (decide (length (columns cognos_df) = length (columns pbi_df)))
        as [|Hne]; [done|exfalso].
      pose (i := Nat.min (length (columns cognos_df)) (length (columns pbi_df))).
      assert (i < length (column_checklist cognos_df pbi_df))%nat as Hi.
      { rewrite length_column_checklist. lia. }
      destruct (lookup_lt_is_Some_2 _ _ Hi) as [r Hr].
      specialize (Hall i r Hr). rewrite (Hout i r Hr) in Hall; [done|lia]. }
    apply list_eq. intros i.
    destruct (decide (i < length (columns cognos_df))%nat) as [Hi|Hi].
    + specialize (Hall i). rewrite column_checklist_lookup_aux in Hall.
      rewrite decide_True in Hall by lia.
      specialize (Hall _ eq_refl). simpl in Hall.
      apply bool_decide_eq_true in Hall. unfold label_at in Hall.
      destruct (lookup_lt_is_Some_2 (columns cognos_df) i Hi) as [x Hx].
      destruct (lookup_lt_is_Some_2 (columns pbi_df) i ltac:(lia)) as [y Hy].
      rewrite Hx, Hy in *. simpl in Hall. by subst.
    + rewrite !lookup_ge_None_2; [done|lia..].
  - intros Heq. apply Forall_lookup. intros i r Hr.
    rewrite column_checklist_lookup_aux in Hr.
    destruct (decide _); [|done]. injection Hr as <-. simpl.
    apply bool_decide_eq_true. unfold label_at. by rewrite Heq.
Qed.

End ColumnChecklist.

(** ** Value Normalizer, on every cell *)

Section NormalizerTotal.

Lemma rstrip_by_app (p : ascii -> bool) (a b : string) :
  Py.rstrip_by p (a +:+ b)
  = match Py.rstrip_by p b with
    | "" => Py.rstrip_by p a
    | r => a +:+ r
    end.
Proof.
  induction a as [|c a IH].
  - rewrite append_nil_l.
    destruct (Py.rstrip_by p b); [done|by rewrite append_nil_l].
  - rewrite append_cons. cbn [Py.rstrip_by]. rewrite IH.
    destruct (Py.rstrip_by p b) as [|c' r]; [done|].
    rewrite append_cons.
    destruct a; reflexivity.
Qed.

(** A text is zeros followed by what [lstrip("0")] leaves of it, and that
    does not start with a zero. *)
Lemma lstrip_zeros_split (u : string) :
  exists n, u = zeros n +:+ Py.lstrip_char "0" u
            /\ (forall d, Py.lstrip_char "0" u <> String "0" d).
Proof.
  unfold Py.lstrip_char. induction u as [|c u (n & IH & Hn)].
  - exists 0%nat. done.
  - rewrite lstrip_by_cons. destruct (Ascii.eqb "0" c) eqn:Hc.
    + apply Ascii.eqb_eq in Hc as <-. exists (S n). split; [|done].
      cbn [zeros]. rewrite append_cons. by rewrite <- IH.
    + exists 0%nat. split; [done|]. intros d [= -> _].
      by rewrite Ascii.eqb_refl in Hc.
Qed.

Lemma isdigit_char_not_space (c : ascii) :
  Py.isdigit_char c = true -> Py.isspace c = false.
Proof.
  destruct c as [[] [] [] [] [] [] [] []]; vm_compute; congruence.
Qed.

Lemma isdigit_char_not_decimal (c : ascii) :
  Py.isdigit_char c = true -> Py.isdecimal c = false ->
  Ascii.eqb c "_" = false /\ Ascii.eqb c "-" = false /\ Ascii.eqb c "+" = false.
Proof.
  destruct c as [[] [] [] [] [] [] [] []]; vm_compute; intros; by repeat split.
Qed.

Lemma isdecimal_not_sign (c : ascii) :
  Py.isdigit_char c = true ->
  Ascii.eqb c "-" = false /\ Ascii.eqb c "+" = false.
Proof.
  destruct c as [[] [] [] [] [] [] [] []]; vm_compute; intros; by repeat split.
Qed.

(** [int] on a text of digits: the number it writes when the digits are
    all decimal, no literal otherwise. *)
Lemma int_digits_isdigit (u : string) (acc : Z) (seen : bool) :
  Py.all_chars Py.isdigit_char u = true ->
  u <> "" \/ seen = true ->
  Py.int_digits acc seen u
  = if Py.all_chars Py.isdecimal u then Some (digits_value acc u) else None.
Proof.
  revert acc seen. induction u as [|c u IH]; intros acc seen Hall Hne.
  - destruct Hne as [? | ->]; done.
  - cbn [Py.all_chars] in Hall. apply andb_true_iff in Hall as [Hc Hu].
    cbn [Py.int_digits Py.all_chars digits_value].
    destruct (Py.isdecimal c) eqn:Hd.
    + simpl. apply IH; [done|by right].
    + destruct (isdigit_char_not_decimal c Hc Hd) as (-> & _). done.
Qed.

Lemma digits_value_zeros (n : nat) (u : string) :
  digits_value 0 (zeros n +:+ u) = digits_value 0 u.
Proof. induction n as [|n IH]; [done|]. simpl. exact IH. Qed.

Lemma all_chars_app (p : ascii -> bool) (a b : string) :
  Py.all_chars p (a +:+ b) = Py.all_chars p a && Py.all_chars p b.
Proof.
  induction a as [|c a IH]; [done|].
  rewrite append_cons. simpl. rewrite IH. by rewrite andb_assoc.
Qed.

Lemma all_chars_zeros_digit (p : ascii -> bool) (n : nat) :
  p "0"%char = true -> Py.all_chars p (zeros n) = true.
Proof. intros Hp. induction n as [|n IH]; [done|]. simpl. by rewrite Hp. Qed.

Lemma strip_zeros_digits (n : nat) (t : string) :
  Py.all_chars Py.isdigit_char t = true ->
  Py.strip (zeros n +:+ t) = zeros n +:+ t.
Proof.
  intros Hall.
  assert (Py.all_chars Py.isdigit_char (zeros n +:+ t) = true) as Hall'.
  { rewrite all_chars_app, Hall, all_chars_zeros_digit; done. }
  unfold Py.strip. rewrite lstrip_by_none, rstrip_by_none; [done|..];
    (eapply all_chars_impl; [|exact Hall']);
    intros c Hc; by rewrite (isdigit_char_not_space c Hc).
Qed.

(** [int] on zeros followed by a text of digits. *)
Lemma int_zeros_digits (n : nat) (t : string) :
  Py.isdigit t = true ->
  Py.int (zeros n +:+ t)
  = if Py.all_chars Py.isdecimal t then Some (digits_value 0 t) else None.
Proof.
  intros Ht.
  assert (t <> "" /\ Py.all_chars Py.isdigit_char t = true) as [Hne Hall].
  { destruct t; [done|]. split; [done|exact Ht]. }
  assert (Py.all_chars Py.isdigit_char (zeros n +:+ t) = true) as Hall'.
  { rewrite all_chars_app, Hall, all_chars_zeros_digit; done. }
  assert (zeros n +:+ t <> "") as Hne'.
  { destruct n; [done|]. simpl. done. }
  unfold Py.int.
  rewrite (strip_zeros_digits n t Hall).
  destruct (zeros n +:+ t) as [|c d] eqn:Hz; [done|].
  cbn [Py.all_chars] in Hall'. apply andb_true_iff in Hall' as [Hc Hd].
  destruct (isdecimal_not_sign c Hc) as [-> ->].
  rewrite int_digits_isdigit; [|by simpl; rewrite Hc, Hd|by left].
  rewrite <- Hz, all_chars_app, (all_chars_zeros_digit _ n eq_refl).
  simpl. by rewrite digits_value_zeros.
Qed.

(** The text [int] is called on ([val.lstrip("0") or "0"], line 12) is, once
    [int] has dropped the whitespace around it, zeros followed by the text
    the guard of line 11 tested. *)
Lemma int_argument (s : string) :
  Py.isdigit (stripped s) = true ->
  exists n, Py.strip (Py.or_ (Py.lstrip_char "0" s) "0") = zeros n +:+ stripped s.
Proof.
  intros Ht. unfold stripped in *.
  destruct s as [|c s0] eqn:Hs; [done|]. rewrite <- Hs in *.
  destruct (Py.isspace c) eqn:Hsp.
  - (* whitespace in front: lstrip("0") changes nothing *)
    assert (Py.lstrip_char "0" s = s) as ->.
    { rewrite Hs. unfold Py.lstrip_char. rewrite lstrip_by_cons.
      destruct (Ascii.eqb "0" c) eqn:Hc; [|done].
      apply Ascii.eqb_eq in Hc as <-. done. }
    assert (Py.or_ s "0" = s) as -> by (by rewrite Hs).
    destruct (lstrip_zeros_split (Py.strip s)) as (n & Hn & _).
    exists n. exact Hn.
  - (* no whitespace in front *)
    assert (Py.strip s = Py.rstrip_by Py.isspace s) as Hstrip.
    { unfold Py.strip. rewrite Hs, lstrip_by_cons, Hsp. done. }
    rewrite Hstrip in Ht |- *.
    destruct (lstrip_zeros_split s) as (j & Hj & Hnz).
    remember (Py.lstrip_char "0" s) as s' eqn:Hs'.
    assert (Py.rstrip_by Py.isspace s
            = match Py.rstrip_by Py.isspace s' with
              | "" => Py.rstrip_by Py.isspace (zeros j)
              | r => zeros j +:+ r
              end) as Hr.
    { rewrite Hj at 1. apply rstrip_by_app. }
    rewrite Hr in Ht |- *. clear Hr Hstrip Hj Hs' Hs Hsp.
    assert (Py.all_chars (fun c => negb (Py.isspace c)) (zeros j) = true) as Hzj.
    { by apply all_chars_zeros_digit. }
    destruct s' as [|c' s'']. 
    { exfalso. simpl in Ht. rewrite (rstrip_by_none _ _ Hzj) in Ht.
      clear -Ht. induction j as [|j IH]; [done|]. exact (IH Ht). }
    destruct (Py.rstrip_by Py.isspace (String c' s'')) as [|c'' r] eqn:Hr.
    + (* what follows the zeros is whitespace only: nothing is left *)
      exfalso. rewrite (rstrip_by_none _ _ Hzj) in Ht.
      clear -Ht. induction j as [|j IH]; [done|]. exact (IH Ht).
    + (* the zeros go, the rest stays *)
      assert (c'' = c') as ->.
      { cbn [Py.rstrip_by] in Hr. destruct (Py.rstrip_by Py.isspace s'');
          [destruct (Py.isspace c')|]; congruence. }
      assert (Py.lstrip_char "0" (zeros j +:+ String c' r) = String c' r) as Hl.
      { apply lstrip_zeros. intros ->. by apply (Hnz s''). }
      rewrite Hl in Ht. rewrite Hl. exists 0%nat.
      cbn [Py.or_]. unfold Py.strip.
      assert (Py.isspace c' = false) as Hc'.
      { apply isdigit_char_not_space. cbn in Ht.
        by apply andb_true_iff in Ht as [? _]. }
      by rewrite lstrip_by_cons, Hc', Hr.
Qed.

(** What the normalizer returns, by the text it tests. *)
Lemma strip_leading_zeros_stripped (val : value) :
  strip_leading_zeros val
  = match val with
    | VStr s =>
        if Py.isdigit (stripped s)
        then if Py.all_chars Py.isdecimal (stripped s)
             then Ok (VNum (digits_value 0 (stripped s)))
             else Raise (ValueError "invalid literal for int() with base 10")
        else Ok val
    | _ => Ok val
    end.
Proof.
  destruct val as [s| |]; [|done..].
  unfold strip_leading_zeros. fold (stripped s).
  destruct (Py.isdigit (stripped s)) eqn:Ht; [|done].
  destruct (int_argument s Ht) as (n & Hn).
  assert (Py.int (Py.or_ (Py.lstrip_char "0" s) "0")
          = Py.int (zeros n +:+ stripped s)) as ->.
  { unfold Py.int. rewrite Hn, strip_zeros_digits; [done|].
    by destruct (stripped s). }
  rewrite (int_zeros_digits n _ Ht).
  by destruct (Py.all_chars Py.isdecimal (stripped s)).
Qed.


End NormalizerTotal.

(** ** What a call keeps of its inputs *)

Section FramesKept.





End FramesKept.

(** ** Measure Set *)

Section MeasureSet.

Lemma select_dims_textual (cognos_df pbi_df : DataFrame) (col : string) :
  col ∈ shared_columns cognos_df pbi_df ->
  textual_or_id_key cognos_df col ->
  col ∈ (select_dims cognos_df pbi_df).1.
Proof.
  intros Hin Hkey. rewrite select_dims_spec.
  unfold dimension_selector_spec.
  assert (col ∈ filter (textual_or_id_key cognos_df)
                       (shared_columns cognos_df pbi_df)) as H.
  { by apply list_elem_of_filter. }
  destruct (filter (textual_or_id_key cognos_df) _) as [|d1 l1]; [|done].
  by apply elem_of_nil in H.
Qed.

Lemma elem_of_measures_after (cognos_df pbi_df : DataFrame) :
  let o := generate_validation_report cognos_df pbi_df in
  let dims := (select_dims cognos_df pbi_df).1 in
  forall m,
    m ∈ all_measures_of (cognos_df_after o) (pbi_df_after o) dims
    <-> m ∈ shared_columns cognos_df pbi_df /\ (m ∉ dims)
        /\ dtype_of cognos_df m = DNumber /\ dtype_of pbi_df m = DNumber.
Proof.
  intros o dims m. subst o. rewrite elem_of_all_measures.
  unfold shared_columns. rewrite list_elem_of_filter.
  destruct (decide (dims = [])) as [Hnil|Hne].
  - rewrite (generate_validation_report_raise _ _ Hnil). cbn. tauto.
  - rewrite (generate_validation_report_run _ _ Hne). cbn. fold dims.
    split.
    + intros (Hc & Hd & H1 & H2).
      rewrite fillna_cols_dtype_of in H1, H2 by done. tauto.
    + intros (Hc & Hd & H1 & H2).
      rewrite !fillna_cols_dtype_of by done. tauto.
Qed.

(** X5. The Measure Set, by the datasets as they were given: a column is a
    measure if and only if both datasets have it, it is not a dimension and
    it is numeric in both; filling the dimension cells changes nothing to
    that. A column that is textual in the source, or carries [_id] or
    [_key] in its name, whatever the case, is never a measure, and no
    measure is listed twice. *)
Theorem measure_set_of_inputs (cognos_df pbi_df : DataFrame) :
  let o := generate_validation_report cognos_df pbi_df in
  let dims := (select_dims cognos_df pbi_df).1 in
  let ms := all_measures_of (cognos_df_after o) (pbi_df_after o) dims in
  (forall m,
     m ∈ ms
     <-> m ∈ shared_columns cognos_df pbi_df /\ (m ∉ dims)
         /\ dtype_of cognos_df m = DNumber /\ dtype_of pbi_df m = DNumber)
  /\ (forall m, textual_or_id_key cognos_df m -> m ∉ ms)
  /\ NoDup ms.
Proof.
  intros o dims ms. split; [apply elem_of_measures_after|]. split.
  - intros m Hm Hin. apply elem_of_measures_after in Hin as (Hs & Hd & _).
    apply Hd. by apply select_dims_textual.
  - apply NoDup_all_measures.
Qed.

(** X6. When the warning of line 67 is shown, the list it prints is the
    list of all shared columns, these are the dimensions, each of them is
    numeric in the source, and the Measure Set is empty: no column is left
    to compare. *)
Theorem warning_no_measures (cognos_df pbi_df : DataFrame) (ds : list string) :
  st_warning ds ∈ shown (generate_validation_report cognos_df pbi_df) ->
  let o := generate_validation_report cognos_df pbi_df in
  ds = shared_columns cognos_df pbi_df
  /\ (select_dims cognos_df pbi_df).1 = ds
  /\ (forall col, col ∈ ds -> dtype_of cognos_df col = DNumber)
  /\ all_measures_of (cognos_df_after o) (pbi_df_after o) ds = [].
Proof.
  intros Hw o.
  assert ((select_dims cognos_df pbi_df).2 = [st_warning ds]
          /\ (select_dims cognos_df pbi_df).1 = ds
          /\ ds = shared_columns cognos_df pbi_df
          /\ filter (fun col => dtype_of cognos_df col <> DNumber)
                    (shared_columns cognos_df pbi_df) = []) as (H2 & H1 & Hs & Hf).
  { assert (st_warning ds ∈ (select_dims cognos_df pbi_df).2) as Hin.
    { destruct (decide ((select_dims cognos_df pbi_df).1 = [])) as [Hnil|Hne].
      - by rewrite (generate_validation_report_raise _ _ Hnil) in Hw.
      - rewrite (generate_validation_report_run _ _ Hne) in Hw. cbn in Hw.
        apply elem_of_app in Hw as [?|Hw]; [done|].
        by apply list_elem_of_singleton in Hw. }
    revert Hin. rewrite select_dims_spec. unfold dimension_selector_spec.
    destruct (filter (textual_or_id_key cognos_df) _) as [|d1 l1];
      [|by intros ?%elem_of_nil].
    destruct (filter (fun col => dtype_of cognos_df col <> DNumber) _)
      as [|d2 l2]; [|by intros ?%elem_of_nil].
    cbn. intros [= ->]%list_elem_of_singleton. done. }
  split; [done|]. split; [done|]. split.
  - intros col Hcol. rewrite Hs in Hcol.
    destruct (decide (dtype_of cognos_df col = DNumber)) as [|Hn]; [done|].
    assert (col ∈ filter (fun col => dtype_of cognos_df col <> DNumber)
                         (shared_columns cognos_df pbi_df)) as Hin
      by (by apply list_elem_of_filter).
    rewrite Hf in Hin. by apply elem_of_nil in Hin.
  - apply elem_of_nil_inv. intros m Hm.
    rewrite <- H1 in Hm. apply elem_of_measures_after in Hm as (Hsh & Hd & _).
    apply Hd. by rewrite H1, Hs.
Qed.

End MeasureSet.

(** ** Totals *)

Section Totals.















End Totals.

(** ** The summary and the totals of the datasets *)

Section SummaryTotals.


Lemma report_all_present (ca pa : Table) (dims ms : list string) :
  "unique_key" ∉ dims ->
  Forall (fun r => cell r "presence" = VStr "Present in Both")
         (report_row ca pa dims ms <$> unified_keys ca pa)
  <-> same_keys ca pa.
Proof.
  intros Hkey. rewrite Forall_fmap, Forall_forall. unfold same_keys. split.
  - intros H key.
    assert (forall k, k ∈ unified_keys ca pa ->
              k ∈ getitem ca "unique_key" /\ k ∈ getitem pa "unique_key") as Hboth.
    { intros k Hk. specialize (H k Hk). simpl in H.
      rewrite report_row_presence in H by done.
      unfold presence_of in H. destruct (decide _) as [|]; [done|].
      by destruct (decide _). }
    split; intros Hin; apply Hboth, elem_of_unified_keys; auto.
  - intros H key Hk. simpl. rewrite report_row_presence by done.
    unfold presence_of. rewrite decide_True; [done|].
    apply elem_of_unified_keys in Hk as [Hk|Hk]; split; try done; by apply H.
Qed.

(** X8. The last row of the summary says [Yes] exactly when the two
    aggregates hold the same keys, and [No] otherwise, for every report
    none of whose dimensions is labelled [unique_key] or [presence]. *)
Theorem all_present_iff_same_keys
    (cognos_df pbi_df : DataFrame) (vr ca pa t : Table) (dims : list string) :
  returned (generate_validation_report cognos_df pbi_df) = Ok (vr, ca, pa, dims) ->
  "unique_key" ∉ dims -> "presence" ∉ dims ->
  generate_diff_checker vr = Ok t ->
  exists yn,
    last (trows t) = Some (summary_row "All rows present in both" (VStr yn))
    /\ (yn = "Yes" <-> same_keys ca pa)
    /\ (yn = "No" <-> ~ same_keys ca pa).
Proof.
  intros H Hkey Hp Ht.
  pose proof (generate_validation_report_report _ _ _ _ _ _ H) as Hvr.
  cbv zeta in Hvr.
  set (ms := all_measures_of _ _ dims) in Hvr.
  unfold generate_diff_checker in Ht.
  destruct (traverse _ _) as [sums|e]; [|done]. cbn [mbind result_bind] in Ht.
  injection Ht as <-. cbn [trows]. rewrite last_snoc.
  assert (all_present_in_both vr = true <-> same_keys ca pa) as Hall.
  { unfold all_present_in_both. rewrite Hvr. cbn [tcols].
    rewrite (count_presence dims ms Hp), decide_False by lia.
    unfold getitem. cbn [trows]. rewrite forallb_presence.
    rewrite bool_decide_eq_true. by apply report_all_present. }
  destruct (all_present_in_both vr).
  - exists "Yes". split; [done|]. split; [tauto|].
    split; [done|]. intros Hn. destruct Hn. by apply Hall.
  - exists "No". split; [done|]. split.
    + split; [done|]. intros Hs. by apply Hall in Hs.
    + split; [|done]. intros _ Hs. by apply Hall in Hs.
Qed.



End SummaryTotals.

(** ** Orders of rows and columns *)

Section Orders.










End Orders.

(** ** A single dimension of text *)

Section SingleDimension.







End SingleDimension.

(** ** Numeric cleaning *)

Section Cleaning.

Lemma traverse_Raise {A B : Type} (f : A -> result B) (l : list A) (x : A)
    (e : exn) :
  x ∈ l -> f x = Raise e -> (forall y e', f y = Raise e' -> e' = e) ->
  traverse f l = Raise e.
Proof.
  intros Hx Hfx Hall. induction l as [|y l IH]; [by apply elem_of_nil in Hx|].
  cbn [traverse]. destruct (f y) as [b|e'] eqn:Hy.
  - cbn [mbind result_bind].
    apply elem_of_cons in Hx as [->|Hx]; [congruence|].
    by rewrite (IH Hx).
  - cbn [mbind result_bind]. by rewrite (Hall y e' Hy).
Qed.

Lemma traverse_Ok_inv {A B : Type} (f : A -> result B) (l : list A)
    (ys : list B) :
  traverse f l = Ok ys -> forall x, x ∈ l -> exists y, f x = Ok y.
Proof.
  revert ys. induction l as [|a l IH]; intros ys H x Hx;
    [by apply elem_of_nil in Hx|].
  cbn [traverse] in H. destruct (f a) as [b|] eqn:Ha; [|done].
  cbn [mbind result_bind] in H.
  destruct (traverse f l) as [bs|] eqn:Hl; [|done].
  apply elem_of_cons in Hx as [->|Hx]; [by exists b|]. by apply (IH bs).
Qed.

Lemma traverse_Raise_inv {A B : Type} (f : A -> result B) (l : list A)
    (e : exn) :
  traverse f l = Raise e -> exists x, x ∈ l /\ f x = Raise e.
Proof.
  induction l as [|a l IH]; [done|]. cbn [traverse].
  destruct (f a) as [b|e'] eqn:Ha; cbn [mbind result_bind].
  - destruct (traverse f l) as [bs|e'] eqn:Hl; cbn [mbind result_bind]; [done|].
    intros [= ->]. destruct (IH eq_refl) as (x & Hx & Hfx).
    exists x. split; [by right|done].
  - intros [= ->]. exists a. split; [by left|done].
Qed.

Lemma foldlM_Raise {A B : Type} (f : A -> B -> result A) (l : list B) (a : A)
    (x : B) (e : exn) :
  x ∈ l -> (forall a', f a' x = Raise e) ->
  (forall a' y e', f a' y = Raise e' -> e' = e) ->
  foldlM f a l = Raise e.
Proof.
  intros Hx Hfx Hall. revert a.
  induction l as [|y l IH]; intros a; [by apply elem_of_nil in Hx|].
  cbn [foldlM]. destruct (f a y) as [a'|e'] eqn:Hy.
  - cbn [mbind result_bind].
    apply elem_of_cons in Hx as [->|Hx]; [by rewrite Hfx in Hy|].
    by apply IH.
  - cbn [mbind result_bind]. by rewrite (Hall a y e' Hy).
Qed.

Lemma clean_cell_Raise (d : dtype) (v : value) (e : exn) :
  clean_cell d v = Raise e ->
  e = ValueError "invalid literal for int() with base 10".
Proof.
  unfold clean_cell, strip_leading_zeros.
  destruct d, v; try done;
    (destruct (Py.isdigit _); [|done]; destruct (Py.int _); [done|congruence]).
Qed.

Lemma clean_column_Raise (df : DataFrame) (col : string) (e : exn) :
  traverse (fun r => clean_cell (dtype_of df col) (cell r col)) (rows df)
  = Raise e ->
  e = ValueError "invalid literal for int() with base 10".
Proof.
  intros (r & _ & Hr)%traverse_Raise_inv. by apply clean_cell_Raise in Hr.
Qed.

Lemma applymap_strip_Raise_inv (df : DataFrame) (e : exn) :
  applymap_strip df = Raise e ->
  e = ValueError "invalid literal for int() with base 10".
Proof.
  unfold applymap_strip.
  destruct (traverse _ (columns df)) as [?|e'] eqn:Ht; [done|].
  cbn [mbind result_bind]. intros [= <-].
  apply traverse_Raise_inv in Ht as (col & _ & Hc).
  by apply clean_column_Raise in Hc.
Qed.

Lemma applymap_strip_Raise (df : DataFrame) (col : string) (r : row) (e : exn) :
  col ∈ columns df -> r ∈ rows df ->
  clean_cell (dtype_of df col) (cell r col) = Raise e ->
  applymap_strip df = Raise e.
Proof.
  intros Hcol Hr Hc. unfold applymap_strip.
  pose proof (clean_cell_Raise _ _ _ Hc) as ->.
  rewrite (traverse_Raise _ (columns df) col
             (ValueError "invalid literal for int() with base 10")); [done|done|..].
  - apply (traverse_Raise _ (rows df) r); [done|done|].
    intros y e'. apply clean_cell_Raise.
  - intros c e'. apply clean_column_Raise.
Qed.

Lemma applymap_strip_Ok (df df1 : DataFrame) :
  applymap_strip df = Ok df1 ->
  columns df1 = columns df
  /\ rows df1
     = (fun r : row =>
          map_imap (fun col v => Some (cleaned (dtype_of df col) v)) r)
       <$> rows df
  /\ forall col r, col ∈ columns df -> r ∈ rows df ->
       exists v, clean_cell (dtype_of df col) (cell r col) = Ok v.
Proof.
  unfold applymap_strip.
  destruct (traverse _ (columns df)) as [cs|] eqn:Ht; [|done].
  cbn [mbind result_bind]. intros [= <-]. split; [done|]. split; [done|].
  intros col r Hcol Hr.
  destruct (traverse_Ok_inv _ _ _ Ht col Hcol) as (vs & Hvs).
  by apply (traverse_Ok_inv _ _ _ Hvs r Hr).
Qed.

Lemma cell_map_imap (g : string -> value -> value) (r : row) (col : string) :
  (forall c, g c VNaN = VNaN) ->
  cell (map_imap (fun c v => Some (g c v)) r) col = g col (cell r col).
Proof.
  intros Hg. unfold cell. rewrite map_lookup_imap.
  destruct (r !! col); simpl; [done|]. by rewrite Hg.
Qed.

Lemma cleaned_NaN (d : dtype) : cleaned d VNaN = VNaN.
Proof. by destruct d. Qed.

Lemma inferred_dtypes_text (df : DataFrame) (rows' : list row) (col : string)
    (r' : row) :
  r' ∈ rows' -> is_text (cell r' col) = true ->
  inferred_dtypes df rows' !! col = dtypes df !! col.
Proof.
  intros Hr Htext. unfold inferred_dtypes.
  assert (forallb (fun r0 => negb (is_text (cell r0 col))) rows' = false) as Hf.
  { apply not_true_is_false. intros Hall. rewrite forallb_forall in Hall.
    specialize (Hall r'). rewrite Htext in Hall.
    discriminate Hall. by apply list_elem_of_In. }
  induction (columns df) as [|c cols IH]; [done|]. cbn [foldr].
  destruct (decide (c = col)) as [->|Hne].
  - by rewrite Hf, andb_false_r.
  - destruct (_ && _ && _); [|done]. by rewrite lookup_insert_ne.
Qed.

(** The type of a column that still holds a text after the cleaning is
    what it was. *)
Lemma applymap_strip_dtype_text (df df1 : DataFrame) (col : string) (r : row) :
  applymap_strip df = Ok df1 ->
  r ∈ rows df -> is_text (cleaned (dtype_of df col) (cell r col)) = true ->
  dtype_of df1 col = dtype_of df col.
Proof.
  unfold applymap_strip.
  destruct (traverse _ (columns df)) as [cs|]; [|done].
  cbn [mbind result_bind]. intros [= <-] Hr Htext.
  unfold dtype_of at 1. cbn [dtypes].
  rewrite (inferred_dtypes_text df _ col
             (map_imap (fun col0 v => Some (cleaned (dtype_of df col0) v)) r));
    [done| |].
  - apply list_elem_of_fmap. by exists r.
  - by rewrite cell_map_imap by (intros; apply cleaned_NaN).
Qed.

End Cleaning.

Section MainCleaning.

Lemma clean_numeric_excel_Raise (xls : list (string * DataFrame))
    (name : string) (df : DataFrame) (e : exn) :
  (name, df) ∈ xls -> applymap_strip df = Raise e ->
  clean_numeric_excel (Ok xls)
  = {| cleaned_data := Raise e; temp_file_left := true |}.
Proof.
  intros Hin Hdf. unfold clean_numeric_excel. cbn [mbind result_bind].
  pose proof (applymap_strip_Raise_inv _ _ Hdf) as ->.
  rewrite (foldlM_Raise _ xls ∅ (name, df)
             (ValueError "invalid literal for int() with base 10")); [done|done|..].
  - intros a'. cbn [snd]. by rewrite Hdf.
  - intros a' y e'. destruct (applymap_strip y.2) as [?|e''] eqn:Hy; [done|].
    cbn [mbind result_bind]. intros [= <-].
    by apply applymap_strip_Raise_inv in Hy.
Qed.

(** X14. A text cell that cannot be cleaned (digits, one of them not
    decimal), in any sheet of the workbook, also one the report does not
    read, ends the run whatever the option: [main] shows the [ValueError],
    offers nothing for download, does not get to look for the two sheets,
    and the temporary file is left behind. *)
Theorem main_cleaning_failure
    (xls : list (string * DataFrame)) (name : string) (df : DataFrame)
    (col : string) (r : row) (s : string) (option : choice) :
  (name, df) ∈ xls -> col ∈ columns df -> r ∈ rows df ->
  dtype_of df col <> DOther -> cell r col = VStr s ->
  Py.isdigit (stripped s) = true ->
  Py.all_chars Py.isdecimal (stripped s) = false ->
  main (Ok xls) option
  = {| outcome_of_run :=
         st_error (Exception
                     (ValueError "invalid literal for int() with base 10"));
       temp_file := true |}.
Proof.
  intros Hin Hcol Hr Hd Hs Hdig Hdec. unfold main.
  rewrite (clean_numeric_excel_Raise xls name df
             (ValueError "invalid literal for int() with base 10") Hin); [done|].
  apply (applymap_strip_Raise df col r); [done|done|].
  rewrite Hs. unfold clean_cell.
  assert (strip_leading_zeros (VStr s)
          = Raise (ValueError "invalid literal for int() with base 10")) as E.
  { rewrite strip_leading_zeros_stripped. by rewrite Hdig, Hdec. }
  by destruct (dtype_of df col).
Qed.

Lemma upper_strip_objects_inr (df df' : DataFrame) :
  upper_strip_objects df = inr df' ->
  columns df' = columns df /\ dtypes df' = dtypes df
  /\ rows df'
     = (fun r : row =>
          map_imap (fun col v =>
                      Some (if decide (dtype_of df col = DObject)
                            then str_upper_strip v else v)) r)
       <$> rows df.
Proof.
  unfold upper_strip_objects. destruct (forallb _ _); [|done].
  by intros [= <-].
Qed.

Lemma cell_upper_strip (df : DataFrame) (r : row) (col : string) :
  cell (map_imap (fun col v =>
                    Some (if decide (dtype_of df col = DObject)
                          then str_upper_strip v else v)) r) col
  = if decide (dtype_of df col = DObject)
    then str_upper_strip (cell r col) else cell r col.
Proof.
  rewrite (cell_map_imap
             (fun col v => if decide (dtype_of df col = DObject)
                           then str_upper_strip v else v)); [done|].
  intros c. by destruct (decide _).
Qed.

(** X15. A code made of digits in a column of text is lost: when the
    column holds another cell that stays text, the cleaning turns the code
    into a number, the column stays a text column, and the upper-casing of
    line 166 then leaves the cell missing. *)
Theorem digit_codes_erased
    (df df1 df2 : DataFrame) (col : string) (i : nat) (r r' : row)
    (s t : string) :
  applymap_strip df = Ok df1 -> upper_strip_objects df1 = inr df2 ->
  col ∈ columns df -> dtype_of df col = DObject ->
  rows df !! i = Some r -> cell r col = VStr s ->
  Py.isdigit (stripped s) = true ->
  r' ∈ rows df -> cell r' col = VStr t -> Py.isdigit (stripped t) = false ->
  exists r1 r2,
    rows df1 !! i = Some r1
    /\ cell r1 col = VNum (digits_value 0 (stripped s))
    /\ rows df2 !! i = Some r2
    /\ cell r2 col = VNaN.
Proof.
  intros H1 H2 Hcol Hd Hi Hs Hdig Hr' Ht Hndig.
  destruct (applymap_strip_Ok _ _ H1) as (Hc1 & Hr1 & Hok).
  destruct (upper_strip_objects_inr _ _ H2) as (Hc2 & Hd2 & Hr2).
  assert (dtype_of df1 col = DObject) as Hd1.
  { rewrite (applymap_strip_dtype_text df df1 col r' H1 Hr'); [done|].
    rewrite Hd, Ht. unfold cleaned, clean_cell.
    rewrite strip_leading_zeros_stripped. by rewrite Hndig. }
  assert (cleaned DObject (VStr s) = VNum (digits_value 0 (stripped s))) as Hcl.
  { destruct (Hok col r Hcol (list_elem_of_lookup_2 _ _ _ Hi)) as (v & Hv).
    unfold cleaned. rewrite Hd, Hs in Hv. rewrite Hv.
    unfold clean_cell in Hv. rewrite strip_leading_zeros_stripped in Hv.
    rewrite Hdig in Hv. destruct (Py.all_chars _ _); congruence. }
  eexists _, _. split; [by rewrite Hr1, list_lookup_fmap, Hi|].
  split.
  { rewrite cell_map_imap by (intros; apply cleaned_NaN).
    by rewrite Hd, Hs. }
  split; [by rewrite Hr2, Hr1, !list_lookup_fmap, Hi|].
  rewrite cell_upper_strip, decide_True by done.
  rewrite cell_map_imap by (intros; apply cleaned_NaN).
  by rewrite Hd, Hs, Hcl.
Qed.

End MainCleaning.

(** ** The run of [main] *)

Section UpperCase.








End UpperCase.

Section Main.







End Main.

(** ** The sheets of the workbook *)

Section Sheets.




(** The names of the cleaned sheets are the names of the sheets. *)
Lemma cleaned_sheets_names (xls : list (string * DataFrame))
    (acc cd : gmap string DataFrame) (name : string) :
  foldlM (fun cleaned_data (item : string * DataFrame) =>
            cleaned_df ← applymap_strip item.2;
            Ok (<[item.1 := cleaned_df]> cleaned_data))
         acc xls = Ok cd ->
  cd !! name = None <-> acc !! name = None /\ name ∉ xls.*1.
Proof.
  revert acc. induction xls as [|[n df] xls IH]; intros acc.
  - cbn [foldlM]. intros [= <-]. rewrite fmap_nil.
    split; [intros H; split; [done|apply not_elem_of_nil]|by intros [H _]].
  - cbn [foldlM fst snd]. destruct (applymap_strip df) as [df'|]; [|done].
    cbn [mbind result_bind]. intros H. rewrite (IH _ H).
    rewrite fmap_cons, not_elem_of_cons. cbn [fst].
    rewrite lookup_insert_None. intuition congruence.
Qed.

(** X19. When the cleaning returned, the run shows the message on missing
    sheets exactly when the workbook has no sheet named [Cognos] or no
    sheet named [PBI], the names being compared as they are written;
    the choice of the option plays no part, and the temporary file is
    removed. *)
Theorem main_missing_sheets (xls : list (string * DataFrame))
    (cd : gmap string DataFrame) (option : choice) :
  cleaned_data (clean_numeric_excel (Ok xls)) = Ok cd ->
  main (Ok xls) option
  = {| outcome_of_run := st_error_missing_sheets; temp_file := false |}
  <-> "Cognos" ∉ xls.*1 \/ "PBI" ∉ xls.*1.
Proof.
  intros Hcd.
  assert (forall name, cd !! name = None <-> name ∉ xls.*1) as Hnames.
  { intros name. unfold clean_numeric_excel in Hcd.
    cbn [cleaned_data mbind result_bind] in Hcd.
    rewrite (cleaned_sheets_names xls ∅ cd name Hcd), lookup_empty. tauto. }
  unfold main. rewrite Hcd.
  assert (temp_file_left (clean_numeric_excel (Ok xls)) = false) as ->.
  { unfold clean_numeric_excel in *. cbn [cleaned_data temp_file_left] in *.
    by rewrite Hcd. }
  rewrite <- !Hnames.
  destruct (cd !! "Cognos") as [c|] eqn:Hc; [|by split; [left|]].
  destruct (cd !! "PBI") as [p|] eqn:Hp; [|by split; [right|]].
  split; [|by intros [?|?]].
  intros H. exfalso. injection H as H.
  destruct (upper_strip_objects c); [done|].
  destruct (upper_strip_objects p); [done|].
  destruct option; [|done].
  destruct (returned _) as [[[[? ?] ?] ?]|]; [|done].
  by destruct (generate_diff_checker _).
Qed.

End Sheets.

(** ** The further properties on the example datasets *)

Section FurtherExamples.

Ltac computed :=
  first [ vm_compute; reflexivity
        | apply (bool_decide_unpack _); vm_compute; exact I ].

(** Witness of X2: the columns of [ex_cognos] and of [amount_pbi]. *)
Lemma column_checklist_all_match_witness :
  ("" ∉ columns ex_cognos) /\ ("" ∉ columns amount_pbi)
  /\ (Forall (fun r => Match r = true) (column_checklist ex_cognos amount_pbi)
      <-> columns ex_cognos = columns amount_pbi).
Proof.
  assert ("" ∉ columns ex_cognos) as H1 by computed.
  assert ("" ∉ columns amount_pbi) as H2 by computed.
  exact (conj H1 (conj H2
           (proj1 (column_checklist_all_match ex_cognos amount_pbi H1 H2)))).
Defined.

(** Witness of X6: two datasets with numeric columns only. *)
Lemma warning_no_measures_witness :
  st_warning ["Qty"; "Price"] ∈ shown qty_run
  /\ (select_dims qty_df qty_df).1 = ["Qty"; "Price"]
  /\ all_measures_of (cognos_df_after qty_run) (pbi_df_after qty_run)
                     ["Qty"; "Price"] = [].
Proof.
  assert (st_warning ["Qty"; "Price"] ∈ shown qty_run) as H.
  { assert (shown qty_run
            = [st_warning ["Qty"; "Price"]; st_info ["Qty"; "Price"]]) as E
      by computed.
    rewrite E. apply list_elem_of_here. }
  destruct (warning_no_measures qty_df qty_df _ H) as (_ & H1 & _ & H2).
  exact (conj H (conj H1 H2)).
Defined.


(** Witness of X8: the summary of the end-to-end example says [No]. *)
Lemma all_present_iff_same_keys_witness :
  returned ex_run
  = Ok (report_of ex_run, cognos_agg_of ex_run, pbi_agg_of ex_run, dims_of ex_run)
  /\ ("unique_key" ∉ dims_of ex_run) /\ ("presence" ∉ dims_of ex_run)
  /\ generate_diff_checker (report_of ex_run) = Ok ex_summary
  /\ exists yn,
       last (trows ex_summary)
       = Some (summary_row "All rows present in both" (VStr yn))
       /\ (yn = "Yes" <-> same_keys (cognos_agg_of ex_run) (pbi_agg_of ex_run))
       /\ (yn = "No" <-> ~ same_keys (cognos_agg_of ex_run) (pbi_agg_of ex_run)).
Proof.
  assert (returned ex_run
          = Ok (report_of ex_run, cognos_agg_of ex_run, pbi_agg_of ex_run,
                dims_of ex_run)) as H by computed.
  assert ("unique_key" ∉ dims_of ex_run) as Hk by computed.
  assert ("presence" ∉ dims_of ex_run) as Hp by computed.
  assert (generate_diff_checker (report_of ex_run) = Ok ex_summary) as Hs
    by computed.
  exact (conj H (conj Hk (conj Hp (conj Hs
           (all_present_iff_same_keys ex_cognos ex_pbi _ _ _ ex_summary _
              H Hk Hp Hs))))).
Defined.






(** Witness of X14: a workbook with a superscript two in a third sheet. *)
Lemma main_cleaning_failure_witness :
  ("Notes", notes_df) ∈ notes_book
  /\ main (Ok notes_book) Only_Column_Names_Present
     = {| outcome_of_run :=
            st_error (Exception
                        (ValueError "invalid literal for int() with base 10"));
          temp_file := true |}.
Proof.
  assert (("Notes", notes_df) ∈ notes_book) as Hin
    by (do 2 apply list_elem_of_further; apply list_elem_of_here).
  split; [exact Hin|].
  apply (main_cleaning_failure notes_book "Notes" notes_df "Note"
           (default ∅ (rows notes_df !! 0%nat))
           (String (ascii_of_N 178) "") Only_Column_Names_Present Hin).
  - computed.
  - apply (list_elem_of_lookup_2 _ 0%nat). computed.
  - computed.
  - computed.
  - computed.
  - computed.
Defined.

(** Witness of X15: the codes [A12] and [00045]. *)
Lemma digit_codes_erased_witness :
  applymap_strip codes_df = Ok codes_cleaned
  /\ upper_strip_objects codes_cleaned = inr codes_ready
  /\ exists r1 r2,
       rows codes_cleaned !! 1%nat = Some r1
       /\ cell r1 "Code" = VNum (digits_value 0 (stripped "00045"))
       /\ rows codes_ready !! 1%nat = Some r2
       /\ cell r2 "Code" = VNaN.
Proof.
  assert (applymap_strip codes_df = Ok codes_cleaned) as H1 by computed.
  assert (upper_strip_objects codes_cleaned = inr codes_ready) as H2 by computed.
  refine (conj H1 (conj H2
            (digit_codes_erased codes_df _ _ "Code" 1%nat
               (default ∅ (rows codes_df !! 1%nat))
               (default ∅ (rows codes_df !! 0%nat))
               "00045" "A12" H1 H2 _ _ _ _ _ _ _ _))).
  - computed.
  - computed.
  - computed.
  - computed.
  - computed.
  - apply (list_elem_of_lookup_2 _ 0%nat). computed.
  - computed.
  - computed.
Defined.



(** Witness of X19: a workbook whose first sheet is named [cognos]. *)
Lemma main_missing_sheets_witness :
  cleaned_data (clean_numeric_excel (Ok lower_book))
  = Ok (sheets_of (clean_numeric_excel (Ok lower_book)))
  /\ main (Ok lower_book) Data_Present
     = {| outcome_of_run := st_error_missing_sheets; temp_file := false |}.
Proof.
  assert (cleaned_data (clean_numeric_excel (Ok lower_book))
          = Ok (sheets_of (clean_numeric_excel (Ok lower_book)))) as Hcd
    by computed.
  refine (conj Hcd
            (proj2 (main_missing_sheets lower_book _ Data_Present Hcd)
                   (or_introl _))).
  computed.
Defined.

End FurtherExamples.
